(** * wanted.py: the ProgrammersCrawler job-posting crawler

    A shallow embedding of [src/wanted.py] and the properties its
    specification states about it.

    Python values are modelled as follows.
    - A [str] is a sequence of Unicode code points ([pystr], a list of [N]),
      so that [str.replace], [str.split] and [str.strip] work on characters
      as they do in Python 3.
    - What [response.json()] returns is a [json] value: [None], a [bool], an
      [int], a [float], a [str], a [list] or a [dict] with [str] keys.  A
      [dict] is an association list in insertion order; [dict_lookup] finds
      the binding of a key.
    - A raised exception is the [Raise] outcome of a [result]; [try]/[except]
      is [catch].
    - The methods that talk to the network, sleep, log or change the
      crawler's fields run in the monad [M]: crawler state in, outcome,
      crawler state and the trace of events out.
    - Of pandas the program uses [DataFrame], [apply] and [to_csv].  A
      [frame] holds the labelled columns; the type pandas infers for a
      column is left to the class [Pandas], and a call of [to_csv] is an
      event that carries its arguments.  What is written to the file, and
      what a reader gets back from it, is not modelled. *)

From Stdlib Require Import ZArith NArith List Bool Ascii DecimalString.
From Stdlib Require Import DecimalPos DecimalZ Lia.
From stdpp Require Import gmap sets list strings.

Local Open Scope Z_scope.
Local Open Scope list_scope.

(** ** Strings *)

(** A Python [str]: its code points. *)
Abbreviation pystr := (list N).

(** An ASCII literal as a [pystr]. *)
Definition lit (s : string) : list N :=
  map N_of_ascii (String.list_ascii_of_string s).

(** [s.startswith(p)] *)
Fixpoint is_prefix (p s : list N) : bool :=
  match p, s with
  | [], _ => true
  | a :: p', b :: s' => (a =? b)%N && is_prefix p' s'
  | _ :: _, [] => false
  end.

(** [s.replace(old, new)] for a non-empty [old]: the occurrences of [old] are
    found from the left and do not overlap.  [skip] counts the characters of
    the occurrence just replaced that are still to be passed over. *)
Fixpoint replace_from (old new : list N) (skip : nat) (s : list N) : list N :=
  match s with
  | [] => []
  | c :: s' =>
      match skip with
      | S k => replace_from old new k s'
      | O =>
          if is_prefix old s
          then new ++ replace_from old new (length old - 1) s'
          else c :: replace_from old new 0 s'
      end
  end.

(** [s.replace(old, new)]; an empty [old] matches before every character and
    at the end. *)
Definition replace (s old new : list N) : list N :=
  match old with
  | [] => new ++ flat_map (fun c => c :: new) s
  | _ :: _ => replace_from old new 0 s
  end.

(** [s.split(sep)] for a non-empty [sep]: the pieces between the occurrences
    of [sep], found from the left; there is always at least one piece. *)
Fixpoint split_from (sep : list N) (skip : nat) (s : list N) : list (list N) :=
  match s with
  | [] => [[]]
  | c :: s' =>
      match skip with
      | S k => split_from sep k s'
      | O =>
          if is_prefix sep s
          then [] :: split_from sep (length sep - 1) s'
          else
            match split_from sep 0 s' with
            | piece :: pieces => (c :: piece) :: pieces
            | [] => [[c]]
            end
      end
  end.

(** [sep.join(pieces)] *)
Fixpoint join (sep : list N) (pieces : list (list N)) : list N :=
  match pieces with
  | [] => []
  | piece :: rest =>
      match rest with
      | [] => piece
      | _ :: _ => piece ++ sep ++ join sep rest
      end
  end.

(** The characters [str.strip()] removes: those for which [str.isspace]
    holds. *)
Definition isspace (c : N) : bool :=
  ((9 <=? c) && (c <=? 13) || (28 <=? c) && (c <=? 32) ||
   (c =? 133) || (c =? 160) || (c =? 5760) ||
   (8192 <=? c) && (c <=? 8202) || (c =? 8232) || (c =? 8233) ||
   (c =? 8239) || (c =? 8287) || (c =? 12288))%N.

Fixpoint lstrip (s : list N) : list N :=
  match s with
  | [] => []
  | c :: s' => if isspace c then lstrip s' else s
  end.

Definition rstrip (s : list N) : list N := rev (lstrip (rev s)).

(** [s.strip()] *)
Definition strip (s : list N) : list N := rstrip (lstrip s).

(** The bullet character U+2022, the newline and the space. *)
Definition bullet : N := 8226.
Definition newline : N := 10.
Definition space : N := 32.

(** ** Exceptions and outcomes *)

Inductive exn : Type :=
| KeyError
| TypeError
| AttributeError
| ValueError
| OSError
| UnicodeEncodeError
| RequestException.

Inductive result (A : Type) : Type :=
| Return (a : A)
| Raise (e : exn).
Arguments Return {A} a.
Arguments Raise {A} e.

Global Instance result_ret : MRet result := fun A a => Return a.
Global Instance result_bind : MBind result := fun A B f m =>
  match m with
  | Return a => f a
  | Raise e => Raise e
  end.

(** [try: body except (handled): handler]. *)
Definition catch {A : Type} (body : result A) (handled : exn -> bool)
    (handler : result A) : result A :=
  match body with
  | Return a => Return a
  | Raise e => if handled e then handler else Raise e
  end.

(** ** JSON values *)

(** A Python [float] as far as this program looks at one: whether it is
    zero (its truth value) and its [repr]. *)
Record pyfloat : Type := { float_is_zero : bool; float_repr : list N }.

#[warnings="-register-all"]
Inductive json : Type :=
| JNull
| JBool (b : bool)
| JInt (z : Z)
| JFloat (f : pyfloat)
| JStr (s : list N)
| JArr (l : list json)
| JObj (d : list (list N * json)).

Abbreviation dict := (list (list N * json)).

Fixpoint dict_lookup (k : list N) (d : dict) : option json :=
  match d with
  | [] => None
  | (k', v) :: d' => if bool_decide (k = k') then Some v else dict_lookup k d'
  end.

(** [x is None] *)
Definition is_none (v : json) : bool :=
  match v with
  | JNull => true
  | _ => false
  end.

(** The truth value of a JSON value ([if x:], [not x], [x or y]). *)
Definition truthy (v : json) : bool :=
  match v with
  | JNull => false
  | JBool b => b
  | JInt z => negb (z =? 0)
  | JFloat f => negb (float_is_zero f)
  | JStr s => negb (bool_decide (s = []))
  | JArr l => match l with [] => false | _ => true end
  | JObj d => match d with [] => false | _ => true end
  end.

(** [v[key]] for a [str] key: only a [dict] can be subscripted with one.  A
    [list] or a [str] wants an integer index, the other values cannot be
    subscripted at all; both raise [TypeError]. *)
Definition getitem (v : json) (key : list N) : result json :=
  match v with
  | JObj d =>
      match dict_lookup key d with
      | Some x => Return x
      | None => Raise KeyError
      end
  | _ => Raise TypeError
  end.

(** [v.get(key, default)]: only a [dict] has the method. *)
Definition py_get (v : json) (key : list N) (default : json) : result json :=
  match v with
  | JObj d =>
      match dict_lookup key d with
      | Some x => Return x
      | None => Return default
      end
  | _ => Raise AttributeError
  end.

(** [s.split(sep)]: an empty separator is refused. *)
Definition split (s sep : list N) : result (list (list N)) :=
  match sep with
  | [] => Raise ValueError
  | _ :: _ => Return (split_from sep 0 s)
  end.

(** ** safe_get *)

(** The loop [for key in keys: result = result[key]]. *)
Fixpoint walk (cur : json) (keys : list (list N)) : result json :=
  match keys with
  | [] => Return cur
  | key :: keys' => next ← getitem cur key; walk next keys'
  end.

Definition safe_get_handled (e : exn) : bool :=
  match e with
  | KeyError | TypeError | AttributeError => true
  | _ => false
  end.

Definition safe_get (data : json) (keys : list (list N)) (default : json)
    : result json :=
  catch
    (res ← walk data keys;
     mret (if negb (is_none res) then res else default))
    safe_get_handled
    (Return default).

(** ** safe_split *)

(** [text.replace("\u2022 ", "").replace("\u2022", "")]; only a [str] has the
    method. *)
Definition remove_bullets (text : json) : result (list N) :=
  match text with
  | JStr s => Return (replace (replace s [bullet; space] []) [bullet] [])
  | _ => Raise AttributeError
  end.

Definition safe_split (text : json) (delimiter : list N)
    : result (list (list N)) :=
  if negb (truthy text) then Return []
  else
    cleaned ← remove_bullets text;
    pieces ← split cleaned delimiter;
    mret (map strip
            (List.filter (fun item => truthy (JStr (strip item))) pieces)).

(** ** The Python runtime *)

(** What the program leaves to the Python runtime: the [repr] of a [list] or
    a [dict], which [str] prints, and the order in which a [set] of strings
    is iterated, some enumeration of its elements. *)
Class PyRuntime : Type := {
  container_repr : json -> list N;
  set_iter : gset (list N) -> list (list N);
  set_iter_perm : forall s, set_iter s ≡ₚ elements s
}.

(** [str(z)] for an [int]. *)
Definition int_str (z : Z) : list N := lit (NilZero.string_of_int (Z.to_int z)).

(** [str(v)] *)
Definition py_str {runtime : PyRuntime} (v : json) : list N :=
  match v with
  | JNull => lit "None"
  | JBool true => lit "True"
  | JBool false => lit "False"
  | JInt z => int_str z
  | JFloat f => float_repr f
  | JStr s => s
  | JArr _ | JObj _ => container_repr v
  end.

(** [for x in v]: the elements of a [list], the characters of a [str], the
    keys of a [dict]; nothing else can be iterated. *)
Definition py_iter (v : json) : result (list json) :=
  match v with
  | JArr l => Return l
  | JStr s => Return (map (fun c => JStr [c]) s)
  | JObj d => Return (map (fun kv => JStr (fst kv)) d)
  | _ => Raise TypeError
  end.

(** [x or y] *)
Definition py_or (x y : json) : json := if truthy x then x else y.

(** The truth value of a Python [list]. *)
Definition nonempty {A : Type} (l : list A) : bool :=
  match l with
  | [] => false
  | _ :: _ => true
  end.

(** A list of strings as a JSON value. *)
Definition strs (l : list (list N)) : json := JArr (map JStr l).

(** ** The crawler, its environment and its effects *)

Inductive response : Type :=
| RequestFailed
| Body (data : json).

Inductive request : Type :=
| ListingPage (page : Z)
| Detail (job_id : list N).

(** The value of a cell no record provides: [float('nan')]. *)
Definition NaN : json :=
  JFloat {| float_is_zero := false; float_repr := lit "nan" |}.

(** A [pandas.DataFrame]: the number of rows and the columns, each a label
    with its cells, in order. *)
Record frame : Type := {
  height : nat;
  columns : list (list N * list json)
}.

(** What the program finds outside: the answer of the service to each
    request, the clock reading [datetime.now().strftime("%Y%m%d_%H%M%S")],
    and whether a call of [to_csv] with a file name and a frame raises, and
    what: the file cannot be opened or written, a value cannot be encoded.
    [RequestFailed] stands for every [requests.exceptions.RequestException]:
    a transport failure, an error status at [raise_for_status()], a body
    that is not JSON. *)
Record world : Type := {
  respond : request -> response;
  now_stamp : list N;
  to_csv_error : list N -> frame -> option exn
}.

Inductive level : Type := INFO | WARNING | ERROR.

Inductive message : Type :=
| Starting
| NoDataForPage (page : Z)
| ErrorFetchingList
| ErrorFetchingDetail (job_id : list N)
| UnexpectedError (job_id : list N)
| NoMoreJobs
| Collected (n : nat)
| Completed (n : nat)
| NoDataToSave
| DataSaved (filename : list N)
| ErrorSaving.

(** What the program does to the outside.  [ToCsv] is the call
    [df.to_csv(filename, index=index, encoding=encoding)] with its
    arguments.  The bytes that reach the file, and what a reader makes of
    them, are the work of pandas and of the [csv] module and are not
    described here; a call that raises may leave a file behind. *)
Inductive event : Type :=
| Get (r : request)
| Sleep
| Log (l : level) (m : message)
| ToCsv (filename : list N) (index : bool) (encoding : list N) (df : frame).

(** [self.job_ids] and [self.results]. *)
Record crawler : Type := {
  job_ids : gset (list N);
  results : list (list (list N * json))
}.

(** [ProgrammersCrawler()] *)
Definition new_crawler : crawler := {| job_ids := ∅; results := [] |}.

(** A method: from the crawler's state to an outcome, the new state and the
    events it caused, in order.  What happened before an exception stays. *)
Definition M (A : Type) : Type := crawler -> result A * crawler * list event.

Global Instance M_ret : MRet M := fun A a self => (Return a, self, []).
Global Instance M_bind : MBind M := fun A B f m self =>
  match m self with
  | (Return a, self', t) =>
      match f a self' with
      | (r, self'', t') => (r, self'', t ++ t')
      end
  | (Raise e, self', t) => (Raise e, self', t)
  end.

Definition emit (e : event) : M unit := fun self => (Return tt, self, [e]).
Definition lift {A : Type} (r : result A) : M A := fun self => (r, self, []).
Definition get_self : M crawler := fun self => (Return self, self, []).
Definition set_self (self' : crawler) : M unit := fun _ => (Return tt, self', []).

(** [try: body except ...] around a method body: [handlers] gives the
    [except] clause that takes an exception, if one does. *)
Definition try_except {A : Type} (body : M A) (handlers : exn -> option (M A))
    : M A := fun self =>
  match body self with
  | (Return a, self', t) => (Return a, self', t)
  | (Raise e, self', t) =>
      match handlers e with
      | Some handler =>
          match handler self' with
          | (r, self'', t') => (r, self'', t ++ t')
          end
      | None => (Raise e, self', t)
      end
  end.

Definition outcome {A : Type} (x : result A * crawler * list event) : result A :=
  fst (fst x).
Definition final {A : Type} (x : result A * crawler * list event) : crawler :=
  snd (fst x).
Definition trace {A : Type} (x : result A * crawler * list event) : list event :=
  snd x.

(** [isinstance(e, requests.exceptions.RequestException)] *)
Definition is_request_exception (e : exn) : bool :=
  match e with
  | RequestException => true
  | _ => false
  end.

(** ** The fallback literals and the field names *)

(** The literals of the source, by their code points; each is followed by
    its text and what it says. *)
Definition no_title : list N := [51228; 47785; 32; 50630; 51020]%N.
(* '제목 없음', no title *)
Definition no_intro : list N := [49548; 44060; 32; 50630; 51020]%N.
(* '소개 없음', no introduction *)
Definition no_category : list N :=
  [52852; 53580; 44256; 47532; 32; 50630; 51020]%N.
(* '카테고리 없음', no category *)
Definition no_comp_name : list N := [54924; 49324; 47749; 32; 50630; 51020]%N.
(* '회사명 없음', no company name *)
Definition no_comp_addr : list N := [51452; 49548; 32; 50630; 51020]%N.
(* '주소 없음', no address *)
Definition no_role : list N :=
  [50669; 54624; 32; 51221; 48372; 32; 50630; 51020]%N.
(* '역할 정보 없음', no role information *)
Definition no_requirement : list N :=
  [51088; 44201; 50836; 44148; 32; 50630; 51020]%N.
(* '자격요건 없음', no requirements *)
Definition no_preferred : list N :=
  [50864; 45824; 49324; 54637; 32; 50630; 51020]%N.
(* '우대사항 없음', no preferences *)
Definition no_due : list N := [47560; 44048; 51068; 32; 48120; 51221]%N.
(* '마감일 미정', closing date undecided *)
Definition no_tech_stack : list N :=
  [44592; 49696; 32; 49828; 53469; 32; 50630; 51020]%N.
(* '기술 스택 없음', no technology stack *)
Definition no_welfare : list N :=
  [48373; 51648; 32; 51221; 48372; 32; 50630; 51020]%N.
(* '복지 정보 없음', no welfare information *)
Definition no_procedure : list N :=
  [52292; 50857; 32; 51208; 52264; 32; 48120; 51221]%N.
(* '채용 절차 미정', hiring procedure undecided *)

(** The keys of a job record, in the order of the dictionary display. *)
Definition field_names : list (list N) :=
  [lit "title"; lit "intro"; lit "category"; lit "comp_name";
   lit "comp_addr"; lit "role"; lit "requirement"; lit "preferred";
   lit "due"; lit "tech_stack"; lit "welfare"; lit "procedure"].

Definition list_columns : list (list N) :=
  [lit "category"; lit "role"; lit "requirement"; lit "preferred";
   lit "tech_stack"; lit "welfare"].

(** ** The data frame of [save_to_csv] *)

(** The keys of the records in the order of their first appearance. *)
Fixpoint add_keys (seen : list (list N)) (keys : list (list N))
    : list (list N) :=
  match keys with
  | [] => seen
  | k :: keys' =>
      add_keys (if bool_decide (k ∈ seen) then seen else seen ++ [k]) keys'
  end.

Definition all_keys (records : list (list (list N * json))) : list (list N) :=
  fold_left (fun seen r => add_keys seen (map fst r)) records [].

(** A cell that pandas stores as the Python object it is given: a [str] or
    a [list]. *)
Definition is_object_cell (v : json) : bool :=
  match v with
  | JStr _ | JArr _ => true
  | _ => false
  end.

(** What the program leaves to pandas: the cells a column holds for the
    values it is built from.  pandas infers a type for each column and may
    convert the values (an [int] beside a null becomes a [float]), or
    refuse them; a column built from strings and lists only holds them as
    they are. *)
Class Pandas : Type := {
  column_of : list json -> result (list json);
  column_of_objects :
    forall cells,
      forallb is_object_cell cells = true -> column_of cells = Return cells
}.

(** [pd.DataFrame(records)] for a list of dictionaries: one row per record,
    one column per key; a key a record lacks gives [NaN]. *)
Definition DataFrame {pandas : Pandas} (records : list (list (list N * json)))
    : result frame :=
  cols ← mapM (fun k =>
                 cells ← column_of
                           (map (fun r => default NaN (dict_lookup k r))
                                records);
                 mret (k, cells))
              (all_keys records);
  mret {| height := length records; columns := cols |}.

(** [df[col]] *)
Fixpoint frame_getitem (cols : list (list N * list json)) (col : list N)
    : result (list json) :=
  match cols with
  | [] => Raise KeyError
  | (k, cells) :: cols' =>
      if bool_decide (col = k) then Return cells else frame_getitem cols' col
  end.

(** [df[col] = cells] *)
Fixpoint frame_setitem (cols : list (list N * list json)) (col : list N)
    (cells : list json) : list (list N * list json) :=
  match cols with
  | [] => [(col, cells)]
  | (k, old) :: cols' =>
      if bool_decide (col = k) then (k, cells) :: cols'
      else (k, old) :: frame_setitem cols' col cells
  end.

Section Crawler.

Context {runtime : PyRuntime} {pandas : Pandas} (w : world).

(** [lambda x: '|'.join(x) if isinstance(x, list) else str(x)]; [join]
    wants every element to be a [str]. *)
Definition join_or_str (x : json) : result json :=
  match x with
  | JArr l =>
      pieces ← mapM (fun e => match e with
                              | JStr s => Return s
                              | _ => Raise TypeError
                              end) l;
      mret (JStr (join (lit "|") pieces))
  | _ => Return (JStr (py_str x))
  end.

(** The loop [for col in list_columns: df[col] = df[col].apply(...)];
    [apply] makes a column of what the function returns. *)
Fixpoint join_columns (cols : list (list N)) (df : frame) : result frame :=
  match cols with
  | [] => Return df
  | col :: cols' =>
      cells ← frame_getitem (columns df) col;
      joined ← mapM join_or_str cells;
      applied ← column_of joined;
      join_columns cols'
        {| height := height df;
           columns := frame_setitem (columns df) col applied |}
  end.


(** [df.to_csv(filename, index=index, encoding=encoding)]: the call is
    made, and it returns or raises as the world has it. *)
Definition to_csv (df : frame) (filename : list N) (index : bool)
    (encoding : list N) : M unit :=
  _ ← emit (ToCsv filename index encoding df);
  match to_csv_error w filename df with
  | Some e => lift (Raise e)
  | None => mret tt
  end.

(** ** Requests *)

(** [requests.get(url)], [raise_for_status()] and [response.json()]. *)
Definition fetch (r : request) : M json :=
  _ ← emit (Get r);
  lift (match respond w r with
        | RequestFailed => Raise RequestException
        | Body data => Return data
        end).

(** ** get_job_list *)

(** The comprehension
    [[str(item.get('id')) for item in ... if item.get('id')]]. *)
Fixpoint collect_ids (items : list json) : result (list (list N)) :=
  match items with
  | [] => Return []
  | item :: rest =>
      cond ← py_get item (lit "id") JNull;
      if truthy cond then
        id ← py_get item (lit "id") JNull;
        ids ← collect_ids rest;
        mret (py_str id :: ids)
      else collect_ids rest
  end.

Definition listed_ids (data : json) : result (list (list N)) :=
  positions ← py_get data (lit "jobPositions") (JArr []);
  items ← py_iter positions;
  collect_ids items.

Definition get_job_list (page : Z) : M (list (list N)) :=
  try_except
    (data ← fetch (ListingPage page);
     job_ids ← lift (listed_ids data);
     if negb (nonempty job_ids) then
       _ ← emit (Log WARNING (NoDataForPage page));
       mret []
     else mret job_ids)
    (fun e =>
       if is_request_exception e then
         Some (_ ← emit (Log ERROR ErrorFetchingList);
               mret [])
       else None).

(** ** get_job_detail *)

(** The body of the [try] after the response is parsed. *)
Definition job_detail_of (data : json) : result (list (list N * json)) :=
  job_position ← py_get data (lit "jobPosition") (JObj []);
  cat_ids ← py_get job_position (lit "jobCategoryIds") (JArr []) ≫= py_iter;
  let categories := map (fun cat_id => JStr (py_str cat_id)) cat_ids in
  tags ← py_get job_position (lit "technicalTags") (JArr []) ≫= py_iter;
  tech_stacks ← mapM (fun tag => py_get tag (lit "name") (JStr [])) tags;
  description ← py_get job_position (lit "description") (JStr []);
  description_lines ← safe_split description [newline];
  title ← py_get job_position (lit "title") (JStr no_title);
  intro ← py_get job_position (lit "description") (JStr no_intro);
  comp_name ← safe_get job_position [lit "company"; lit "name"]
                 (JStr no_comp_name);
  comp_addr ← py_get job_position (lit "address") (JStr no_comp_addr);
  preferred ← py_get job_position (lit "preferredExperience") JNull
                 ≫= (fun text => safe_split text [newline]);
  due ← py_get job_position (lit "endAt") (JStr no_due);
  welfare ← py_get job_position (lit "additionalInformation") JNull
               ≫= (fun text => safe_split text [newline]);
  procedure ← py_get job_position (lit "additionalInformation")
                 (JStr no_procedure);
  mret [ (lit "title", title);
         (lit "intro", intro);
         (lit "category", py_or (JArr categories) (strs [no_category]));
         (lit "comp_name", comp_name);
         (lit "comp_addr", comp_addr);
         (lit "role", py_or (strs description_lines) (strs [no_role]));
         (lit "requirement",
           py_or (strs description_lines) (strs [no_requirement]));
         (lit "preferred", py_or (strs preferred) (strs [no_preferred]));
         (lit "due", due);
         (lit "tech_stack", py_or (JArr tech_stacks) (strs [no_tech_stack]));
         (lit "welfare", py_or (strs welfare) (strs [no_welfare]));
         (lit "procedure", procedure) ].

Definition get_job_detail (job_id : list N)
    : M (option (list (list N * json))) :=
  try_except
    (data ← fetch (Detail job_id);
     job_detail ← lift (job_detail_of data);
     mret (Some job_detail))
    (fun e =>
       if is_request_exception e then
         Some (_ ← emit (Log ERROR (ErrorFetchingDetail job_id));
               mret None)
       else
         Some (_ ← emit (Log ERROR (UnexpectedError job_id));
               mret None)).

(** ** crawl *)

(** [range(lo, hi)] *)
Definition py_range (lo hi : Z) : list Z :=
  map (fun i => lo + Z.of_nat i) (seq 0 (Z.to_nat (hi - lo))).

(** The first loop, over the pages still to visit. *)
Fixpoint discover (pages : list Z) : M unit :=
  match pages with
  | [] => mret tt
  | page :: rest =>
      new_ids ← get_job_list page;
      if negb (nonempty new_ids) then
        emit (Log INFO NoMoreJobs)
      else
        self ← get_self;
        _ ← set_self {| job_ids := job_ids self ∪ list_to_set new_ids;
                        results := results self |};
        self ← get_self;
        _ ← emit (Log INFO (Collected (size (job_ids self))));
        _ ← emit Sleep;
        discover rest
  end.

(** The second loop, over the identifiers still to visit; [if job_detail:]
    holds for a dictionary that is not empty. *)
Fixpoint enrich (ids : list (list N)) : M unit :=
  match ids with
  | [] => mret tt
  | job_id :: rest =>
      job_detail ← get_job_detail job_id;
      _ ← match job_detail with
          | Some d =>
              if nonempty d then
                self ← get_self;
                set_self {| job_ids := job_ids self;
                            results := results self ++ [d] |}
              else mret tt
          | None => mret tt
          end;
      _ ← emit Sleep;
      enrich rest
  end.

Definition crawl (max_pages : Z) : M unit :=
  _ ← emit (Log INFO Starting);
  _ ← discover (py_range 1 (max_pages + 1));
  self ← get_self;
  _ ← enrich (set_iter (job_ids self));
  self ← get_self;
  emit (Log INFO (Completed (length (results self)))).

(** ** save_to_csv *)

Definition default_filename : list N :=
  lit "programmers_jobs_" ++ now_stamp w ++ lit ".csv".

Definition save_to_csv (filename : option (list N)) : M unit :=
  let filename :=
    match filename with
    | Some (c :: f) => c :: f
    | _ => default_filename
    end in
  self ← get_self;
  if negb (nonempty (results self)) then
    emit (Log WARNING NoDataToSave)
  else
    try_except
      (df ← lift (DataFrame (results self));
       df ← lift (join_columns list_columns df);
       _ ← to_csv df filename false (lit "utf-8-sig");
       emit (Log INFO (DataSaved filename)))
      (fun _ => Some (emit (Log ERROR ErrorSaving))).

Definition main : M unit :=
  _ ← crawl 10;
  save_to_csv None.

End Crawler.

(** ** Reference descriptions *)

(** The path resolution the specification describes: following the keys one
    at a time through nested mappings reaches the value [v]. *)
Inductive resolves : json -> list (list N) -> json -> Prop :=
| resolves_here v : resolves v [] v
| resolves_step d key keys x v :
    dict_lookup key d = Some x ->
    resolves x keys v ->
    resolves (JObj d) (key :: keys) v.

(** Removal of bullets in one pass over the text: every bullet goes, and
    with it a space that follows it directly. *)
Fixpoint debullet (s : list N) : list N :=
  match s with
  | [] => []
  | c :: s' =>
      if (c =? bullet)%N then
        match s' with
        | c' :: s'' => if (c' =? space)%N then debullet s'' else debullet s'
        | [] => []
        end
      else c :: debullet s'
  end.

(** [sep] occurs in [s]. *)
Definition occurs (sep s : list N) : Prop := exists l r, s = l ++ sep ++ r.

(** Neither end of [s] is a whitespace character. *)
Definition starts_with_space (s : list N) : bool :=
  match s with
  | [] => false
  | c :: _ => isspace c
  end.

Definition trimmed (s : list N) : bool :=
  negb (starts_with_space s) && negb (starts_with_space (rev s)).

(** [split_lines] as the specification words it: a bullet marker is removed
    where it leads a piece. *)
Definition remove_leading_bullet (piece : list N) : list N :=
  if is_prefix [bullet; space] piece then drop 2 piece
  else if is_prefix [bullet] piece then drop 1 piece
  else piece.

Definition split_lines_spec (text : option (list N)) (delimiter : list N)
    : list (list N) :=
  match text with
  | None | Some [] => []
  | Some s =>
      List.filter (fun piece => nonempty piece)
        (map strip (map remove_leading_bullet (split_from delimiter 0 s)))
  end.

(** The member of [jobPosition] each field of a job record is read from
    with a plain [get], and the fallback of the field.  ([comp_name] is read
    along the path [company], [name] by [safe_get].) *)
Definition fallbacks : list (list N * list N * json) :=
  [ (lit "title", lit "title", JStr no_title);
    (lit "intro", lit "description", JStr no_intro);
    (lit "category", lit "jobCategoryIds", strs [no_category]);
    (lit "comp_addr", lit "address", JStr no_comp_addr);
    (lit "role", lit "description", strs [no_role]);
    (lit "requirement", lit "description", strs [no_requirement]);
    (lit "preferred", lit "preferredExperience", strs [no_preferred]);
    (lit "due", lit "endAt", JStr no_due);
    (lit "tech_stack", lit "technicalTags", strs [no_tech_stack]);
    (lit "welfare", lit "additionalInformation", strs [no_welfare]);
    (lit "procedure", lit "additionalInformation", JStr no_procedure) ].

(** The fields that go through [safe_split], which takes null as it takes
    the empty text. *)
Definition split_fields : list (list N) :=
  [lit "role"; lit "requirement"; lit "preferred"; lit "welfare"].

(** The fields that are never null. *)
Definition never_null : list (list N) :=
  [lit "category"; lit "comp_name"; lit "role"; lit "requirement";
   lit "preferred"; lit "tech_stack"; lit "welfare"].

(** What [get_job_detail] returns for an identifier. *)
Definition detail_result {runtime : PyRuntime} (w : world) (job_id : list N)
    : option (list (list N * json)) :=
  match respond w (Detail job_id) with
  | RequestFailed => None
  | Body data =>
      match job_detail_of data with
      | Return job_detail => Some job_detail
      | Raise _ => None
      end
  end.

(** The [id] member of a listing entry, null when there is none. *)
Definition entry_id (item : json) : json :=
  match item with
  | JObj d => default JNull (dict_lookup (lit "id") d)
  | _ => JNull
  end.

Definition is_object (v : json) : Prop := exists d, v = JObj d.

(** What [get_job_list] returns for a page. *)
Definition list_result {runtime : PyRuntime} (w : world) (page : Z)
    : result (list (list N)) :=
  match respond w (ListingPage page) with
  | RequestFailed => Return []
  | Body data => listed_ids data
  end.

(** The pages and the identifiers that a trace shows requests for. *)
Definition requested_pages (t : list event) : list Z :=
  omap (fun e => match e with
                 | Get (ListingPage page) => Some page
                 | _ => None
                 end) t.

Definition detail_requests (t : list event) : list (list N) :=
  omap (fun e => match e with
                 | Get (Detail job_id) => Some job_id
                 | _ => None
                 end) t.

(** The identifiers the pages give up to the first page that gives none. *)
Fixpoint gathered {runtime : PyRuntime} (w : world) (pages : list Z) : list (list N) :=
  match pages with
  | [] => []
  | page :: rest =>
      match list_result w page with
      | Return (id :: ids) => (id :: ids) ++ gathered w rest
      | _ => []
      end
  end.

(** The pages requested: each page up to the first that does not give an
    identifier. *)
Fixpoint visited {runtime : PyRuntime} (w : world) (pages : list Z) : list Z :=
  match pages with
  | [] => []
  | page :: rest =>
      match list_result w page with
      | Return (_ :: _) => page :: visited w rest
      | _ => [page]
      end
  end.

(** A job record as the specification types it: six fields hold a value
    (a string when the service keeps to its format), six a sequence of
    strings. *)
Record job_record : Type := {
  rec_title : json;
  rec_intro : json;
  rec_category : list (list N);
  rec_comp_name : json;
  rec_comp_addr : json;
  rec_role : list (list N);
  rec_requirement : list (list N);
  rec_preferred : list (list N);
  rec_due : json;
  rec_tech_stack : list (list N);
  rec_welfare : list (list N);
  rec_procedure : json
}.

(** The dictionary [get_job_detail] builds for such a record. *)
Definition to_dict (r : job_record) : list (list N * json) :=
  [ (lit "title", rec_title r);
    (lit "intro", rec_intro r);
    (lit "category", strs (rec_category r));
    (lit "comp_name", rec_comp_name r);
    (lit "comp_addr", rec_comp_addr r);
    (lit "role", strs (rec_role r));
    (lit "requirement", strs (rec_requirement r));
    (lit "preferred", strs (rec_preferred r));
    (lit "due", rec_due r);
    (lit "tech_stack", strs (rec_tech_stack r));
    (lit "welfare", strs (rec_welfare r));
    (lit "procedure", rec_procedure r) ].

(** The row of the frame for a record: every sequence joined with a bar. *)
Definition bar_joined (l : list (list N)) : json := JStr (join (lit "|") l).




(** ** A runtime and some services for the examples *)

(** A runtime that iterates a set in the order of [elements].  The examples
    below never print a container. *)
Definition sample_runtime : PyRuntime :=
  {| container_repr := fun _ => [];
     set_iter := elements;
     set_iter_perm := fun s => reflexivity (elements s) |}.

(** A pandas that converts nothing.  The examples below build columns of
    strings and lists only. *)
Definition sample_pandas : Pandas :=
  {| column_of := Return;
     column_of_objects := fun cells _ => eq_refl |}.

(** A world given by its answers, with a fixed clock and in which [to_csv]
    never raises. *)
Definition world_of (answers : request -> response) : world :=
  {| respond := answers;
     now_stamp := lit "20240101_000000";
     to_csv_error := fun _ _ => None |}.

(** A JSON object with one member. *)
Definition obj1 (k : string) (v : json) : json := JObj [(lit k, v)].

(** A service whose listing pages 1, 2, ... hold the given entries, with
    empty pages after them, and which answers a detail request as [details]
    says. *)
Definition service (pages : list (list json)) (details : list N -> response)
    : world :=
  world_of (fun r =>
              match r with
              | ListingPage page =>
                  match pages !! Z.to_nat (page - 1) with
                  | Some entries =>
                      if 1 <=? page
                      then Body (obj1 "jobPositions" (JArr entries))
                      else Body (JObj [])
                  | None => Body (JObj [])
                  end
              | Detail job_id => details job_id
              end).

(** A service that answers every detail request with the posting [jp] and
    has no listing. *)
Definition posting (jp : json) : world :=
  world_of (fun r =>
              match r with
              | Detail _ => Body (JObj [(lit "jobPosition", jp)])
              | ListingPage _ => RequestFailed
              end).

(** A service whose first page lists the identifier 1 and which answers
    every later listing request with [later]; it has no detail. *)
Definition one_page_then (later : response) : world :=
  world_of (fun r =>
              match r with
              | ListingPage 1 =>
                  Body (obj1 "jobPositions" (JArr [obj1 "id" (JInt 1)]))
              | ListingPage _ => later
              | Detail _ => RequestFailed
              end).



(** ** The shape of a response *)

Definition is_obj (v : json) : bool :=
  match v with
  | JObj _ => true
  | _ => false
  end.

Definition is_str (v : json) : bool :=
  match v with
  | JStr _ => true
  | _ => false
  end.


(** A value that can be iterated. *)
Definition iterable (v : json) : bool :=
  match v with
  | JArr _ | JStr _ | JObj _ => true
  | _ => false
  end.

(** A value that can be iterated and gives objects only: a list of objects,
    or a string or an object with nothing in it. *)
Definition objects_only (v : json) : bool :=
  match v with
  | JArr l => forallb is_obj l
  | JStr s => negb (nonempty s)
  | JObj d => negb (nonempty d)
  | _ => false
  end.

(** A text [safe_split] takes: a string, or anything false. *)
Definition splittable (v : json) : bool := negb (truthy v) || is_str v.

(** A detail response of which a record can be made. *)
Definition posting_ok (data : json) : bool :=
  match data with
  | JObj top =>
      match default (JObj []) (dict_lookup (lit "jobPosition") top) with
      | JObj d =>
          iterable (default (JArr []) (dict_lookup (lit "jobCategoryIds") d))
          && objects_only
               (default (JArr []) (dict_lookup (lit "technicalTags") d))
          && splittable (default (JStr []) (dict_lookup (lit "description") d))
          && splittable
               (default JNull (dict_lookup (lit "preferredExperience") d))
          && splittable
               (default JNull (dict_lookup (lit "additionalInformation") d))
      | _ => false
      end
  | _ => false
  end.

(** A listing response of which identifiers can be read. *)
Definition listing_ok (data : json) : bool :=
  match data with
  | JObj top =>
      objects_only (default (JArr []) (dict_lookup (lit "jobPositions") top))
  | _ => false
  end.

(** ** Counting in a trace *)

Definition is_sleep (e : event) : bool :=
  match e with
  | Sleep => true
  | _ => false
  end.

(** The number of pauses. *)
Definition sleeps (t : list event) : nat := length (List.filter is_sleep t).

(** The calls of [to_csv]: the file name and the frame. *)
Definition to_csv_calls (t : list event) : list (list N * frame) :=
  omap (fun e => match e with
                 | ToCsv filename _ _ df => Some (filename, df)
                 | _ => None
                 end) t.

(** A page that gives at least one identifier. *)
Definition productive {runtime : PyRuntime} (w : world) (page : Z) : bool :=
  match list_result w page with
  | Return (_ :: _) => true
  | _ => false
  end.

(** How the first loop ends on the pages it is given: it returns at the
    first page that gives the empty list or after the last page, and raises
    what the first page that raises does. *)
Fixpoint discovery_result {runtime : PyRuntime} (w : world) (pages : list Z)
    : result unit :=
  match pages with
  | [] => Return tt
  | page :: rest =>
      match list_result w page with
      | Return [] => Return tt
      | Return (_ :: _) => discovery_result w rest
      | Raise e => Raise e
      end
  end.

(** The record in which every field is its fallback. *)
Definition fallback_record : job_record :=
  {| rec_title := JStr no_title;
     rec_intro := JStr no_intro;
     rec_category := [no_category];
     rec_comp_name := JStr no_comp_name;
     rec_comp_addr := JStr no_comp_addr;
     rec_role := [no_role];
     rec_requirement := [no_requirement];
     rec_preferred := [no_preferred];
     rec_due := JStr no_due;
     rec_tech_stack := [no_tech_stack];
     rec_welfare := [no_welfare];
     rec_procedure := JStr no_procedure |}.

(** ** Proof automation *)

(** Take the first computation of a chain of binds that returns apart. *)
Ltac bind_head m :=
  lazymatch m with
  | mbind _ ?m' => bind_head m'
  | _ => m
  end.

Ltac bind_inv Hr x E :=
  lazymatch type of Hr with
  | ?m = Return _ =>
      let h := bind_head m in
      destruct h as [x|] eqn:E;
      cbn [mbind result_bind mret result_ret] in Hr;
      [|discriminate Hr]
  end.

(** * Properties *)

Lemma walk_resolves data keys v :
  walk data keys = Return v <-> resolves data keys v.
Proof.
  split.
  - revert data. induction keys as [|key keys IH]; intros data H; simpl in H.
    + inversion H; subst. constructor.
    + destruct data; simpl in H; try discriminate.
      destruct (dict_lookup key d) as [x|] eqn:E; simpl in H; try discriminate.
      econstructor; eauto.
  - induction 1 as [v|d key keys x v E _ IH]; simpl; [reflexivity|].
    rewrite E. simpl. exact IH.
Qed.

Lemma walk_raises_handled data keys e :
  walk data keys = Raise e -> safe_get_handled e = true.
Proof.
  revert data. induction keys as [|key keys IH]; intros data H; simpl in H.
  - discriminate.
  - destruct data; simpl in H; try (inversion H; reflexivity).
    destruct (dict_lookup key d) as [x|]; simpl in H.
    + eauto.
    + inversion H; reflexivity.
Qed.

Lemma safe_get_total_raw data keys dflt :
  exists v, safe_get data keys dflt = Return v.
Proof.
  unfold safe_get. destruct (walk data keys) as [r|e] eqn:W; simpl; [eauto|].
  rewrite (walk_raises_handled _ _ _ W). eauto.
Qed.

Lemma safe_get_value data keys dflt v :
  resolves data keys v -> v <> JNull -> safe_get data keys dflt = Return v.
Proof.
  intros Hv Hn. apply walk_resolves in Hv. unfold safe_get. rewrite Hv.
  destruct v; simpl; congruence.
Qed.

Lemma safe_get_default data keys dflt :
  (forall v, resolves data keys v -> v = JNull) ->
  safe_get data keys dflt = Return dflt.
Proof.
  intros Hnull. unfold safe_get.
  destruct (walk data keys) as [r|e] eqn:W; simpl.
  - apply walk_resolves in W. rewrite (Hnull _ W). reflexivity.
  - rewrite (walk_raises_handled _ _ _ W). reflexivity.
Qed.

(** C1: [safe_get] never raises; it returns the terminal value when the whole
    path resolves to a value that is not null, and the default when the path
    does not resolve (a segment is absent, null or cannot be traversed) or
    resolves to null. *)
Theorem safe_get_total_exact (data : json) (keys : list (list N)) (default : json) :
  (exists v, safe_get data keys default = Return v) /\
  (forall v, resolves data keys v -> v <> JNull ->
     safe_get data keys default = Return v) /\
  ((forall v, resolves data keys v -> v = JNull) ->
     safe_get data keys default = Return default).
Proof.
  split; [apply safe_get_total_raw|]. split.
  - intros v. apply safe_get_value.
  - apply safe_get_default.
Qed.

(** The path [company], [name] through a posting with a company name, and
    through one whose company is null. *)
Lemma safe_get_total_exact_witness :
  safe_get (obj1 "company" (obj1 "name" (JStr (lit "Acme"))))
    [lit "company"; lit "name"] (JStr no_comp_name)
  = Return (JStr (lit "Acme")) /\
  safe_get (obj1 "company" JNull) [lit "company"; lit "name"]
    (JStr no_comp_name)
  = Return (JStr no_comp_name).
Proof.
  split.
  - apply (safe_get_total_exact
             (obj1 "company" (obj1 "name" (JStr (lit "Acme"))))
             [lit "company"; lit "name"] (JStr no_comp_name)).
    + apply (resolves_step _ _ _ (obj1 "name" (JStr (lit "Acme"))));
        [reflexivity|].
      apply (resolves_step _ _ _ (JStr (lit "Acme"))); [reflexivity|].
      apply resolves_here.
    + discriminate.
  - apply (safe_get_total_exact (obj1 "company" JNull)
             [lit "company"; lit "name"] (JStr no_comp_name)).
    intros v Hv. inversion Hv as [|? ? ? x ? Hx Hrest]; subst.
    vm_compute in Hx. inversion Hx; subst. inversion Hrest.
Defined.

(** ** Strings *)

Lemma is_prefix_app p s : is_prefix p s = true <-> exists t, s = p ++ t.
Proof.
  revert s. induction p as [|a p IH]; intros s; simpl.
  - split; eauto.
  - destruct s as [|b s].
    + split; [discriminate|]. intros [t Ht]. discriminate.
    + rewrite andb_true_iff, N.eqb_eq, IH. split.
      * intros [-> [t ->]]. eauto.
      * intros [t Ht]. inversion Ht; subst. eauto.
Qed.

Lemma replace_single (b : N) (s : list N) :
  replace s [b] [] = List.filter (fun c => negb (c =? b)%N) s.
Proof.
  unfold replace. induction s as [|c s IH]; simpl; [reflexivity|].
  rewrite andb_true_r, N.eqb_sym.
  destruct (c =? b)%N eqn:E; simpl; rewrite IH; reflexivity.
Qed.

Lemma debullet_replace_aux (n : nat) : forall s, (length s <= n)%nat ->
  List.filter (fun c => negb (c =? bullet)%N)
    (replace_from [bullet; space] [] 0 s)
  = debullet s.
Proof.
  induction n as [|n IH]; intros s Hn.
  - destruct s; [reflexivity|simpl in Hn; lia].
  - destruct s as [|c s]; [reflexivity|]. simpl in Hn.
    cbn [replace_from is_prefix debullet length Nat.sub].
    destruct (c =? bullet)%N eqn:Ec.
    + rewrite N.eqb_sym, Ec. cbn [andb].
      destruct s as [|c' s]; [cbn; rewrite Ec; reflexivity|]. simpl in Hn.
      rewrite andb_true_r, N.eqb_sym.
      destruct (c' =? space)%N eqn:Es.
      * cbn [app replace_from]. apply IH. lia.
      * cbn [List.filter]. rewrite Ec. cbn [negb].
        apply IH. simpl. lia.
    + rewrite N.eqb_sym, Ec. cbn [andb List.filter]. rewrite Ec. cbn [negb].
      f_equal. apply IH. lia.
Qed.

(** The two [replace] calls of [safe_split] remove the bullets as [debullet]
    does. *)
Lemma remove_bullets_debullet (s : list N) :
  remove_bullets (JStr s) = Return (debullet s).
Proof.
  unfold remove_bullets. rewrite replace_single. f_equal.
  unfold replace. eapply debullet_replace_aux. reflexivity.
Qed.

Lemma split_from_nonempty sep skip s : split_from sep skip s <> [].
Proof.
  revert skip. induction s as [|c s IH]; intros skip; simpl; [discriminate|].
  destruct skip; [|apply IH].
  destruct (is_prefix sep (c :: s)); [discriminate|].
  destruct (split_from sep 0 s); discriminate.
Qed.

Lemma join_cons sep piece rest :
  rest <> [] -> join sep (piece :: rest) = piece ++ sep ++ join sep rest.
Proof. destruct rest; [congruence|reflexivity]. Qed.

Lemma join_cons_char sep c piece rest :
  join sep ((c :: piece) :: rest) = c :: join sep (piece :: rest).
Proof. destruct rest; reflexivity. Qed.

(** Joining the pieces with the separator gives the text back. *)
Lemma join_split_from sep s : sep <> [] ->
  forall skip, join sep (split_from sep skip s) = drop skip s.
Proof.
  intros Hsep. induction s as [|c s IH]; intros skip.
  - destruct skip; reflexivity.
  - destruct skip as [|k]; cbn [split_from drop]; [|apply IH].
    destruct (is_prefix sep (c :: s)) eqn:P.
    + rewrite join_cons by apply split_from_nonempty. rewrite IH.
      apply is_prefix_app in P as [t Ht].
      destruct sep as [|a sep]; [congruence|].
      simpl in Ht. inversion Ht; subst. cbn [length Nat.sub app].
      rewrite Nat.sub_0_r, drop_app_length. reflexivity.
    + specialize (IH 0%nat). rewrite drop_0 in IH.
      destruct (split_from sep 0 s) as [|piece pieces] eqn:E.
      * destruct (split_from_nonempty _ _ _ E).
      * rewrite join_cons_char, IH. reflexivity.
Qed.

Lemma first_piece_prefix sep s piece pieces :
  split_from sep 0 s = piece :: pieces -> exists t, s = piece ++ t.
Proof.
  revert piece pieces. induction s as [|c s IH]; intros piece pieces E.
  - inversion E. exists []. reflexivity.
  - cbn [split_from] in E. destruct (is_prefix sep (c :: s)).
    + inversion E. eexists. reflexivity.
    + destruct (split_from sep 0 s) as [|p ps] eqn:E'.
      * destruct (split_from_nonempty _ _ _ E').
      * inversion E; subst. destruct (IH _ _ eq_refl) as [t ->].
        exists t. reflexivity.
Qed.

(** The separator occurs in no piece. *)
Lemma split_from_no_sep sep s : sep <> [] ->
  forall skip, Forall (fun piece => ~ occurs sep piece) (split_from sep skip s).
Proof.
  intros Hsep.
  assert (Hnil : ~ occurs sep []).
  { intros (l & r & E). symmetry in E.
    apply app_eq_nil in E as [_ E]. apply app_eq_nil in E as [E _].
    congruence. }
  induction s as [|c s IH]; intros skip.
  - simpl. constructor; [exact Hnil|constructor].
  - destruct skip as [|k]; cbn [split_from]; [|apply IH].
    destruct (is_prefix sep (c :: s)) eqn:P.
    + constructor; [exact Hnil|apply IH].
    + specialize (IH 0%nat).
      destruct (split_from sep 0 s) as [|piece pieces] eqn:E.
      * destruct (split_from_nonempty _ _ _ E).
      * inversion IH as [|? ? Hp Hps]; subst. constructor; [|exact Hps].
        intros (l & r & El). destruct l as [|c' l].
        -- destruct (first_piece_prefix _ _ _ _ E) as [t ->].
           assert (is_prefix sep (c :: piece ++ t) = true) as P'.
           { apply is_prefix_app. exists (r ++ t).
             rewrite app_comm_cons, El. simpl. rewrite app_assoc. reflexivity. }
           congruence.
        -- inversion El; subst. apply Hp. exists l, r. reflexivity.
Qed.

Lemma split_from_chars sep s : forall skip piece c,
  In piece (split_from sep skip s) -> In c piece -> In c s.
Proof.
  induction s as [|a s IH]; intros skip piece c Hp Hc.
  - simpl in Hp. destruct Hp as [<-|[]]. destruct Hc.
  - destruct skip as [|k]; cbn [split_from] in Hp.
    + destruct (is_prefix sep (a :: s)).
      * destruct Hp as [<-|Hp]; [destruct Hc|]. right. eapply IH; eauto.
      * destruct (split_from sep 0 s) as [|p ps] eqn:E.
        -- destruct Hp as [<-|[]]. destruct Hc as [<-|[]]. left. reflexivity.
        -- destruct Hp as [<-|Hp].
           ++ destruct Hc as [<-|Hc]; [left; reflexivity|].
              right. apply (IH 0%nat p); [rewrite E; left; reflexivity|exact Hc].
           ++ right. apply (IH 0%nat piece); [rewrite E; right; exact Hp|exact Hc].
    + right. eapply IH; eauto.
Qed.

Lemma lstrip_app s : exists l, s = l ++ lstrip s /\ forallb isspace l = true.
Proof.
  induction s as [|c s (l & E & Hl)]; simpl.
  - exists []. split; reflexivity.
  - destruct (isspace c) eqn:Ec.
    + exists (c :: l). simpl. rewrite Ec, Hl. split; [f_equal; exact E|reflexivity].
    + exists []. split; reflexivity.
Qed.

Lemma lstrip_head s : starts_with_space (lstrip s) = false.
Proof.
  induction s as [|c s IH]; simpl; [reflexivity|].
  destruct (isspace c) eqn:Ec; [exact IH|exact Ec].
Qed.

Lemma forallb_rev {A : Type} (f : A -> bool) l :
  forallb f l = true -> forallb f (rev l) = true.
Proof.
  rewrite !forallb_forall. intros Hl x Hx. apply Hl, in_rev, Hx.
Qed.

(** [strip] takes whitespace, and only whitespace, from both ends. *)
Lemma strip_decompose s : exists l r,
  s = l ++ strip s ++ r /\ forallb isspace l = true /\ forallb isspace r = true.
Proof.
  destruct (lstrip_app s) as (l & E & Hl).
  destruct (lstrip_app (rev (lstrip s))) as (r & E' & Hr).
  exists l, (rev r). split; [|split; [exact Hl|apply forallb_rev, Hr]].
  unfold strip, rstrip. rewrite <- rev_app_distr, <- E', rev_involutive.
  exact E.
Qed.

Lemma strip_trimmed s : trimmed (strip s) = true.
Proof.
  unfold trimmed. apply andb_true_iff. split; apply negb_true_iff.
  - destruct (lstrip_app (rev (lstrip s))) as (r & E & Hr).
    apply (f_equal (@rev N)) in E. rewrite rev_involutive, rev_app_distr in E.
    fold (rstrip (lstrip s)) in E. fold (strip s) in E.
    pose proof (lstrip_head s) as Hh. rewrite E in Hh.
    destruct (strip s); [reflexivity|exact Hh].
  - unfold strip, rstrip. rewrite rev_involutive. apply lstrip_head.
Qed.

Lemma strip_chars s c : In c (strip s) -> In c s.
Proof.
  destruct (strip_decompose s) as (l & r & E & _). intros Hc.
  rewrite E, !in_app_iff. auto.
Qed.

Lemma debullet_chars s : forall c, In c (debullet s) -> c <> bullet /\ In c s.
Proof.
  assert (forall n s, (length s <= n)%nat ->
            forall c, In c (debullet s) -> c <> bullet /\ In c s) as Hn.
  { clear s. induction n as [|n IH]; intros s Hs c Hc.
    - destruct s; [destruct Hc|simpl in Hs; lia].
    - destruct s as [|a s]; [destruct Hc|]. simpl in Hs. cbn [debullet] in Hc.
      destruct (a =? bullet)%N eqn:Ea.
      + destruct s as [|a' s]; [destruct Hc|]. simpl in Hs.
        destruct (a' =? space)%N.
        * destruct (IH s ltac:(lia) c Hc). split; [assumption|]. simpl. auto.
        * destruct (IH (a' :: s) ltac:(simpl; lia) c Hc).
          split; [assumption|]. right. assumption.
      + destruct Hc as [<-|Hc].
        * split; [apply N.eqb_neq, Ea|left; reflexivity].
        * destruct (IH s ltac:(lia) c Hc). split; [assumption|right; assumption]. }
  eapply Hn. reflexivity.
Qed.

Lemma comprehension_strip pieces :
  map strip (List.filter (fun item => truthy (JStr (strip item))) pieces)
  = List.filter (fun piece => nonempty piece) (map strip pieces).
Proof.
  induction pieces as [|p pieces IH]; [reflexivity|].
  cbn [map List.filter].
  replace (truthy (JStr (strip p))) with (nonempty (strip p))
    by (destruct (strip p); reflexivity).
  destruct (nonempty (strip p)); cbn [map]; rewrite IH; reflexivity.
Qed.

Lemma safe_split_str s delimiter : s <> [] -> delimiter <> [] ->
  safe_split (JStr s) delimiter
  = Return (List.filter (fun piece => nonempty piece)
              (map strip (split_from delimiter 0 (debullet s)))).
Proof.
  intros Hs Hd. unfold safe_split.
  destruct s as [|c s]; [congruence|]. cbn [truthy negb].
  rewrite bool_decide_eq_false_2 by discriminate. cbn [negb].
  rewrite remove_bullets_debullet. cbn [mbind result_bind].
  destruct delimiter as [|d delimiter]; [congruence|]. cbn [split].
  rewrite <- comprehension_strip. reflexivity.
Qed.

(** C3, amended: [safe_split] returns no piece for null or empty text;
    otherwise it removes every bullet of the text, wherever it stands, with
    a space directly after it, cuts what is left at the occurrences of the
    delimiter, trims each piece and drops the empty ones, in order. *)
Theorem safe_split_removes_every_bullet (s delimiter : list N) :
  safe_split JNull delimiter = Return [] /\
  safe_split (JStr []) delimiter = Return [] /\
  (s <> [] -> delimiter <> [] ->
   exists pieces,
     join delimiter pieces = debullet s /\
     Forall (fun piece => ~ occurs delimiter piece) pieces /\
     safe_split (JStr s) delimiter
     = Return (List.filter (fun piece => nonempty piece) (map strip pieces)) /\
     Forall (fun piece => piece <> [] /\ trimmed piece = true
                          /\ ~ In bullet piece)
       (List.filter (fun piece => nonempty piece) (map strip pieces))) /\
  safe_split (JStr ([bullet] ++ lit " a" ++ [newline; bullet] ++ lit " b"))
    [newline]
  = Return [lit "a"; lit "b"].
Proof.
  split; [reflexivity|]. split; [reflexivity|]. split; [|vm_compute; reflexivity].
  intros Hs Hd. exists (split_from delimiter 0 (debullet s)).
  split; [rewrite join_split_from by assumption; apply drop_0|].
  split; [apply split_from_no_sep; assumption|].
  split; [apply safe_split_str; assumption|].
  apply List.Forall_forall. intros piece Hp.
  apply List.filter_In in Hp as [Hp Hne]. apply in_map_iff in Hp as (p & <- & Hp).
  split; [destruct (strip p); [discriminate|discriminate]|].
  split; [apply strip_trimmed|].
  intros Hb. apply strip_chars in Hb.
  apply (split_from_chars _ _ _ _ _ Hp) in Hb.
  apply debullet_chars in Hb as [Hb _]. congruence.
Qed.

Lemma safe_split_removes_every_bullet_witness :
  exists pieces,
    join [newline] pieces = debullet (lit "a" ++ [bullet] ++ lit " b") /\
    Forall (fun piece => ~ occurs [newline] piece) pieces /\
    safe_split (JStr (lit "a" ++ [bullet] ++ lit " b")) [newline]
    = Return (List.filter (fun piece => nonempty piece) (map strip pieces)) /\
    Forall (fun piece => piece <> [] /\ trimmed piece = true
                         /\ ~ In bullet piece)
      (List.filter (fun piece => nonempty piece) (map strip pieces)).
Proof.
  apply (safe_split_removes_every_bullet
           (lit "a" ++ [bullet] ++ lit " b") [newline]); discriminate.
Defined.

(** C3 as stated fails: a bullet that leads neither the text nor a piece is
    removed all the same. *)
Lemma safe_split_inner_bullet :
  safe_split (JStr (lit "a" ++ [bullet] ++ lit "b")) [newline]
  = Return [lit "ab"] /\
  split_lines_spec (Some (lit "a" ++ [bullet] ++ lit "b")) [newline]
  = [lit "a" ++ [bullet] ++ lit "b"] /\
  safe_split (JStr (lit "a" ++ [bullet] ++ lit "b")) [newline]
  <> Return (split_lines_spec (Some (lit "a" ++ [bullet] ++ lit "b")) [newline]).
Proof.
  split; [vm_compute; reflexivity|]. split; [vm_compute; reflexivity|].
  vm_compute. discriminate.
Qed.

(** ** The job record *)

Section JobDetail.

Context {runtime : PyRuntime}.

Lemma py_get_obj d key dflt :
  py_get (JObj d) key dflt = Return (default dflt (dict_lookup key d)).
Proof. unfold py_get. destruct (dict_lookup key d); reflexivity. Qed.

(** What a record that [job_detail_of] returns is made of. *)
Lemma job_detail_of_inv data r :
  job_detail_of data = Return r ->
  exists d cat_ids tags tech_stacks lines comp_name preferred welfare,
    py_get data (lit "jobPosition") (JObj []) = Return (JObj d) /\
    py_iter (default (JArr []) (dict_lookup (lit "jobCategoryIds") d))
      = Return cat_ids /\
    py_iter (default (JArr []) (dict_lookup (lit "technicalTags") d))
      = Return tags /\
    mapM (fun tag => py_get tag (lit "name") (JStr [])) tags
      = Return tech_stacks /\
    safe_split (default (JStr []) (dict_lookup (lit "description") d))
      [newline] = Return lines /\
    safe_get (JObj d) [lit "company"; lit "name"] (JStr no_comp_name)
      = Return comp_name /\
    safe_split (default JNull (dict_lookup (lit "preferredExperience") d))
      [newline] = Return preferred /\
    safe_split (default JNull (dict_lookup (lit "additionalInformation") d))
      [newline] = Return welfare /\
    r = [ (lit "title",
            default (JStr no_title) (dict_lookup (lit "title") d));
          (lit "intro",
            default (JStr no_intro) (dict_lookup (lit "description") d));
          (lit "category",
            py_or (JArr (map (fun cat_id => JStr (py_str cat_id)) cat_ids))
                  (strs [no_category]));
          (lit "comp_name", comp_name);
          (lit "comp_addr",
            default (JStr no_comp_addr) (dict_lookup (lit "address") d));
          (lit "role", py_or (strs lines) (strs [no_role]));
          (lit "requirement", py_or (strs lines) (strs [no_requirement]));
          (lit "preferred", py_or (strs preferred) (strs [no_preferred]));
          (lit "due", default (JStr no_due) (dict_lookup (lit "endAt") d));
          (lit "tech_stack",
            py_or (JArr tech_stacks) (strs [no_tech_stack]));
          (lit "welfare", py_or (strs welfare) (strs [no_welfare]));
          (lit "procedure",
            default (JStr no_procedure)
              (dict_lookup (lit "additionalInformation") d)) ].
Proof.
  unfold job_detail_of. intros Hr.
  bind_inv Hr job_position Ejp.
  assert (exists d, job_position = JObj d) as [d ->].
  { destruct job_position; try discriminate Hr. eauto. }
  rewrite !py_get_obj in Hr. cbn [mbind result_bind mret result_ret] in Hr.
  bind_inv Hr cat_ids Ecat.
  bind_inv Hr tags Etags.
  bind_inv Hr tech_stacks Etech.
  bind_inv Hr lines Elines.
  bind_inv Hr comp_name Ecomp.
  bind_inv Hr preferred Epref.
  bind_inv Hr welfare Ewelf.
  inversion Hr; subst r.
  exists d, cat_ids, tags, tech_stacks, lines, comp_name, preferred, welfare.
  repeat (split; [assumption || reflexivity|]). reflexivity.
Qed.

Context (w : world).

Lemma get_job_detail_eq job_id self :
  get_job_detail w job_id self
  = (Return (detail_result w job_id), self,
     Get (Detail job_id)
     :: match respond w (Detail job_id) with
        | RequestFailed => [Log ERROR (ErrorFetchingDetail job_id)]
        | Body data =>
            match job_detail_of data with
            | Return _ => []
            | Raise _ => [Log ERROR (UnexpectedError job_id)]
            end
        end).
Proof.
  unfold get_job_detail, detail_result, try_except, fetch, emit, lift.
  unfold mbind, M_bind, mret, M_ret.
  destruct (respond w (Detail job_id)) as [|data]; [reflexivity|].
  destruct (job_detail_of data) as [r|e] eqn:E; [reflexivity|].
  simpl. destruct e; try reflexivity.
  exfalso. revert E. unfold job_detail_of.
  assert (forall (A : Type) (m : result A), m <> Raise RequestException ->
            forall (B : Type) (f : A -> result B),
              (forall a, f a <> Raise RequestException) ->
              mbind f m <> Raise RequestException) as Hbind.
  { intros A m Hm B f Hf. destruct m as [a|e']; [apply Hf|].
    cbn. intros E'. inversion E'. subst. apply Hm. reflexivity. }
  assert (forall v k x, py_get v k x <> Raise RequestException) as Hget.
  { intros v k x. destruct v; simpl; try discriminate.
    destruct (dict_lookup k d); discriminate. }
  assert (forall v, py_iter v <> Raise RequestException) as Hiter.
  { intros v. destruct v; discriminate. }
  assert (forall v d, safe_split v d <> Raise RequestException) as Hsplit.
  { intros v d. unfold safe_split. destruct (negb (truthy v)); [discriminate|].
    apply Hbind; [destruct v; discriminate|]. intros a.
    apply Hbind; [destruct d; discriminate|]. discriminate. }
  assert (forall v ks x, safe_get v ks x <> Raise RequestException) as Hsafe.
  { intros v ks x. destruct (safe_get_total_raw v ks x) as [y ->]. discriminate. }
  assert (forall l, mapM (fun tag => py_get tag (lit "name") (JStr [])) l
                    <> Raise RequestException) as HmapM.
  { induction l as [|a l IH]; [discriminate|]. cbn [mapM].
    apply Hbind; [apply Hget|]. intros y.
    apply Hbind; [exact IH|]. discriminate. }
  repeat first
    [ apply Hget | apply Hiter | apply Hsplit | apply Hsafe | apply HmapM
    | discriminate
    | apply Hbind; [|intros ?] ].
Qed.

Lemma fetched_record job_id self r :
  outcome (get_job_detail w job_id self) = Return (Some r) ->
  exists data,
    respond w (Detail job_id) = Body data /\ job_detail_of data = Return r.
Proof.
  rewrite get_job_detail_eq. unfold outcome, detail_result. simpl.
  destruct (respond w (Detail job_id)) as [|data]; [discriminate|].
  destruct (job_detail_of data) as [r'|] eqn:E; [|discriminate].
  intros [= ->]. exists data. split; [reflexivity|exact E].
Qed.

Lemma safe_get_not_null data keys dflt v :
  safe_get data keys dflt = Return v -> dflt <> JNull -> v <> JNull.
Proof.
  unfold safe_get. intros E Hd.
  destruct (walk data keys) as [x|e]; simpl in E.
  - destruct x; simpl in E; inversion E; subst; (exact Hd || discriminate).
  - destruct (safe_get_handled e); inversion E; subst; exact Hd.
Qed.

Lemma py_or_arr_not_null l fallback :
  py_or (JArr l) (strs fallback) <> JNull.
Proof. unfold py_or. destruct (truthy (JArr l)); discriminate. Qed.

Lemma safe_split_falsy text delimiter lines :
  truthy text = false ->
  safe_split text delimiter = Return lines -> lines = [].
Proof. unfold safe_split. intros ->. simpl. congruence. Qed.

(** C2, amended: a record produced by a successful detail fetch has the
    twelve fields; [category], [comp_name], [role], [requirement],
    [preferred], [tech_stack] and [welfare] are never null; a field whose
    source is absent holds its fallback, the literal of the code; and so do
    [role], [requirement], [preferred], [welfare] and [comp_name] when
    their source is null. *)
Theorem job_record_fields (job_id : list N) (self : crawler)
    (r : list (list N * json)) :
  outcome (get_job_detail w job_id self) = Return (Some r) ->
  exists data d,
    respond w (Detail job_id) = Body data /\
    py_get data (lit "jobPosition") (JObj []) = Return (JObj d) /\
    map fst r = field_names /\
    (forall field, In field never_null ->
       exists v, dict_lookup field r = Some v /\ v <> JNull) /\
    (forall field source fallback,
       In (field, source, fallback) fallbacks ->
       dict_lookup source d = None ->
       dict_lookup field r = Some fallback) /\
    (forall field source fallback,
       In (field, source, fallback) fallbacks ->
       In field split_fields ->
       dict_lookup source d = Some JNull ->
       dict_lookup field r = Some fallback) /\
    ((forall v, resolves (JObj d) [lit "company"; lit "name"] v -> v = JNull) ->
     dict_lookup (lit "comp_name") r = Some (JStr no_comp_name)).
Proof.
  intros Hr. destruct (fetched_record _ _ _ Hr) as (data & Hresp & Hjob).
  destruct (job_detail_of_inv _ _ Hjob)
    as (d & cat_ids & tags & tech & lines & comp & pref & welf
        & Hjp & Ecat & Etags & Etech & Elines & Ecomp & Epref & Ewelf & ->).
  exists data, d. split; [exact Hresp|]. split; [exact Hjp|].
  split; [reflexivity|]. split; [|split; [|split]].
  - intros field Hf. simpl in Hf.
    destruct Hf as [<-|[<-|[<-|[<-|[<-|[<-|[<-|[]]]]]]]];
      (eexists; split; [reflexivity|]);
      try apply py_or_arr_not_null.
    eapply safe_get_not_null; [exact Ecomp|discriminate].
  - intros field source fallback Hf Hsrc. simpl in Hf.
    destruct Hf as [Hf|[Hf|[Hf|[Hf|[Hf|[Hf|[Hf|[Hf|[Hf|[Hf|[Hf|[]]]]]]]]]]]];
      inversion Hf; subst field source fallback; clear Hf;
      rewrite Hsrc in *; cbn [default] in *.
    + reflexivity.
    + reflexivity.
    + inversion Ecat; subst. reflexivity.
    + reflexivity.
    + apply safe_split_falsy in Elines as ->; reflexivity.
    + apply safe_split_falsy in Elines as ->; reflexivity.
    + apply safe_split_falsy in Epref as ->; reflexivity.
    + reflexivity.
    + inversion Etags; subst. inversion Etech; subst. reflexivity.
    + apply safe_split_falsy in Ewelf as ->; reflexivity.
    + reflexivity.
  - intros field source fallback Hf Hs Hsrc. simpl in Hf, Hs.
    destruct Hf as [Hf|[Hf|[Hf|[Hf|[Hf|[Hf|[Hf|[Hf|[Hf|[Hf|[Hf|[]]]]]]]]]]]];
      inversion Hf; subst field source fallback; clear Hf;
      try (exfalso; clear - Hs;
           repeat (destruct Hs as [Hs|Hs]; [discriminate Hs|]); exact Hs);
      rewrite Hsrc in *; cbn [default] in *.
    + apply safe_split_falsy in Elines as ->; reflexivity.
    + apply safe_split_falsy in Elines as ->; reflexivity.
    + apply safe_split_falsy in Epref as ->; reflexivity.
    + apply safe_split_falsy in Ewelf as ->; reflexivity.
  - intros Hnull.
    rewrite (safe_get_default _ _ _ Hnull) in Ecomp.
    inversion Ecomp; subst. reflexivity.
Qed.

(** C4, amended: [role] and [requirement] are both the split of the
    description when that split has a line, and each its own fallback when it
    has none; for the description "• intro line" alone both are
    ["intro line"], [preferred] is its fallback and so is [welfare]. *)
Theorem role_requirement_split (job_id : list N) (self : crawler) :
  (forall r,
     outcome (get_job_detail w job_id self) = Return (Some r) ->
     exists data d lines,
       respond w (Detail job_id) = Body data /\
       py_get data (lit "jobPosition") (JObj []) = Return (JObj d) /\
       safe_split (default (JStr []) (dict_lookup (lit "description") d))
         [newline] = Return lines /\
       (lines <> [] ->
        dict_lookup (lit "role") r = Some (strs lines) /\
        dict_lookup (lit "requirement") r = Some (strs lines)) /\
       (lines = [] ->
        dict_lookup (lit "role") r = Some (strs [no_role]) /\
        dict_lookup (lit "requirement") r = Some (strs [no_requirement]))) /\
  (respond w (Detail job_id)
   = Body (obj1 "jobPosition"
             (obj1 "description" (JStr (bullet :: lit " intro line")))) ->
   exists r,
     outcome (get_job_detail w job_id self) = Return (Some r) /\
     dict_lookup (lit "role") r = Some (strs [lit "intro line"]) /\
     dict_lookup (lit "requirement") r = Some (strs [lit "intro line"]) /\
     dict_lookup (lit "preferred") r = Some (strs [no_preferred]) /\
     dict_lookup (lit "welfare") r = Some (strs [no_welfare])).
Proof.
  split.
  - intros r Hr. destruct (fetched_record _ _ _ Hr) as (data & Hresp & Hjob).
    destruct (job_detail_of_inv _ _ Hjob)
      as (d & cat_ids & tags & tech & lines & comp & pref & welf
          & Hjp & _ & _ & _ & Elines & _ & _ & _ & ->).
    exists data, d, lines. repeat (split; [assumption|]). split.
    + intros Hl. destruct lines; [congruence|]. split; reflexivity.
    + intros ->. split; reflexivity.
  - intros Hresp. rewrite get_job_detail_eq. unfold outcome, detail_result.
    rewrite Hresp. cbn [fst].
    eexists. split; [vm_compute; reflexivity|].
    repeat split; vm_compute; reflexivity.
Qed.

(** C10, amended: when [additionalInformation] is a non-empty string,
    [procedure] is that string and [welfare] is its split, provided the split
    has a line; when it has none, [welfare] is its fallback. *)
Theorem welfare_split_of_procedure (job_id : list N) (self : crawler)
    (r : list (list N * json)) (data : json) (d : list (list N * json))
    (s : list N) :
  outcome (get_job_detail w job_id self) = Return (Some r) ->
  respond w (Detail job_id) = Body data ->
  py_get data (lit "jobPosition") (JObj []) = Return (JObj d) ->
  dict_lookup (lit "additionalInformation") d = Some (JStr s) ->
  s <> [] ->
  dict_lookup (lit "procedure") r = Some (JStr s) /\
  exists lines,
    safe_split (JStr s) [newline] = Return lines /\
    (lines <> [] -> dict_lookup (lit "welfare") r = Some (strs lines)) /\
    (lines = [] -> dict_lookup (lit "welfare") r = Some (strs [no_welfare])).
Proof.
  intros Hr Hresp Hjp Hai Hs.
  destruct (fetched_record _ _ _ Hr) as (data' & Hresp' & Hjob).
  assert (data' = data) as -> by congruence.
  destruct (job_detail_of_inv _ _ Hjob)
    as (d' & cat_ids & tags & tech & lines & comp & pref & welf
        & Hjp' & _ & _ & _ & _ & _ & _ & Ewelf & ->).
  assert (d' = d) as -> by congruence.
  rewrite Hai in *. cbn [default] in *.
  split; [reflexivity|]. exists welf. split; [exact Ewelf|]. split.
  - intros Hl. destruct welf; [congruence|]. reflexivity.
  - intros ->. reflexivity.
Qed.

End JobDetail.

(** A posting with no member at all: every field holds its fallback. *)
Lemma job_record_fields_witness :
  exists r,
    outcome (get_job_detail (runtime := sample_runtime) (posting (JObj []))
               (lit "7") new_crawler) = Return (Some r) /\
    map fst r = field_names /\
    dict_lookup (lit "title") r = Some (JStr no_title) /\
    dict_lookup (lit "comp_name") r = Some (JStr no_comp_name).
Proof.
  eexists. split; [vm_compute; reflexivity|].
  destruct (job_record_fields (runtime := sample_runtime) (posting (JObj []))
              (lit "7") new_crawler _ eq_refl)
    as (data & d & Hresp & Hjp & Hkeys & _ & Habsent & _ & Hcomp).
  split; [exact Hkeys|].
  vm_compute in Hresp. inversion Hresp; subst data.
  vm_compute in Hjp. inversion Hjp; subst d.
  split.
  - apply (Habsent (lit "title") (lit "title") (JStr no_title));
      [left; reflexivity|reflexivity].
  - apply Hcomp. intros v Hv. inversion Hv as [|? ? ? x ? Hx]; subst.
    vm_compute in Hx. discriminate Hx.
Defined.

(** C2 as stated fails: the fallback of an absent title is the literal of
    the code, not the one of the specification's table, and a title that is
    null stays null. *)
Lemma job_record_title_null :
  (exists r,
     outcome (get_job_detail (runtime := sample_runtime) (posting (JObj []))
                (lit "7") new_crawler) = Return (Some r) /\
     dict_lookup (lit "title") r = Some (JStr no_title) /\
     JStr no_title <> JStr (lit "no title")) /\
  (exists r,
     outcome (get_job_detail (runtime := sample_runtime)
                (posting (obj1 "title" JNull)) (lit "7") new_crawler)
     = Return (Some r) /\
     dict_lookup (lit "title") r = Some JNull).
Proof.
  split; eexists; (split; [vm_compute; reflexivity|]).
  - split; [vm_compute; reflexivity|]. vm_compute. discriminate.
  - vm_compute. reflexivity.
Qed.

Lemma role_requirement_split_witness :
  exists r,
    outcome (get_job_detail (runtime := sample_runtime)
               (posting (obj1 "description"
                           (JStr (bullet :: lit " intro line"))))
               (lit "7") new_crawler) = Return (Some r) /\
    dict_lookup (lit "role") r = Some (strs [lit "intro line"]) /\
    dict_lookup (lit "requirement") r = Some (strs [lit "intro line"]) /\
    dict_lookup (lit "preferred") r = Some (strs [no_preferred]) /\
    dict_lookup (lit "welfare") r = Some (strs [no_welfare]).
Proof.
  apply (role_requirement_split (runtime := sample_runtime)
           (posting (obj1 "description" (JStr (bullet :: lit " intro line"))))
           (lit "7") new_crawler).
  reflexivity.
Defined.

(** C4 as stated fails: without a description [role] and [requirement] hold
    two different fallbacks; and the fallback of [preferred] is the literal
    of the code. *)
Lemma role_requirement_differ :
  exists r,
    outcome (get_job_detail (runtime := sample_runtime) (posting (JObj []))
               (lit "7") new_crawler) = Return (Some r) /\
    dict_lookup (lit "role") r = Some (strs [no_role]) /\
    dict_lookup (lit "requirement") r = Some (strs [no_requirement]) /\
    dict_lookup (lit "role") r <> dict_lookup (lit "requirement") r /\
    dict_lookup (lit "preferred") r
    <> Some (strs [lit "no preference info"]).
Proof.
  eexists. split; [vm_compute; reflexivity|].
  split; [vm_compute; reflexivity|]. split; [vm_compute; reflexivity|].
  split; vm_compute; discriminate.
Qed.

Lemma welfare_split_of_procedure_witness :
  exists r,
    outcome (get_job_detail (runtime := sample_runtime)
               (posting (obj1 "additionalInformation"
                           (JStr (bullet :: lit " lunch"))))
               (lit "7") new_crawler) = Return (Some r) /\
    dict_lookup (lit "procedure") r = Some (JStr (bullet :: lit " lunch")) /\
    dict_lookup (lit "welfare") r = Some (strs [lit "lunch"]).
Proof.
  eexists. split; [vm_compute; reflexivity|].
  destruct (welfare_split_of_procedure (runtime := sample_runtime)
              (posting (obj1 "additionalInformation"
                          (JStr (bullet :: lit " lunch"))))
              (lit "7") new_crawler _ _ _ (bullet :: lit " lunch")
              eq_refl eq_refl eq_refl eq_refl)
    as (Hproc & lines & Elines & Hsome & _); [discriminate|].
  split; [exact Hproc|].
  vm_compute in Elines. inversion Elines; subst lines.
  apply Hsome. discriminate.
Defined.

(** C10 as stated fails: a non-empty text without a line, a single space,
    leaves [welfare] at its fallback, while its split is empty. *)
Lemma welfare_fallback_on_blank :
  exists r,
    outcome (get_job_detail (runtime := sample_runtime)
               (posting (obj1 "additionalInformation" (JStr (lit " "))))
               (lit "7") new_crawler) = Return (Some r) /\
    dict_lookup (lit "procedure") r = Some (JStr (lit " ")) /\
    dict_lookup (lit "welfare") r = Some (strs [no_welfare]) /\
    safe_split (JStr (lit " ")) [newline] = Return [] /\
    strs [no_welfare] <> strs [].
Proof.
  eexists. split; [vm_compute; reflexivity|].
  repeat split; try (vm_compute; reflexivity). discriminate.
Qed.

(** ** The listing *)

Section Listing.

Context {runtime : PyRuntime} (w : world).

Lemma collect_ids_objects items :
  Forall is_object items ->
  collect_ids items
  = Return (map py_str (List.filter truthy (map entry_id items))).
Proof.
  induction 1 as [|item items [d ->] _ IH]; [reflexivity|].
  cbn [collect_ids map List.filter entry_id]. rewrite !py_get_obj.
  cbn [mbind result_bind].
  destruct (truthy (default JNull (dict_lookup (lit "id") d))).
  - cbn [mbind result_bind]. rewrite IH. reflexivity.
  - exact IH.
Qed.

Lemma collect_ids_no_request_exception items :
  collect_ids items <> Raise RequestException.
Proof.
  induction items as [|item items IH]; [discriminate|].
  cbn [collect_ids]. destruct item; try discriminate.
  rewrite !py_get_obj. cbn [mbind result_bind].
  destruct (truthy _); [|exact IH].
  cbn [mbind result_bind]. destruct (collect_ids items); cbn; [discriminate|].
  exact IH.
Qed.

Lemma listed_ids_no_request_exception data :
  listed_ids data <> Raise RequestException.
Proof.
  unfold listed_ids. destruct data; try discriminate.
  rewrite py_get_obj. cbn [mbind result_bind].
  destruct (default (JArr []) (dict_lookup (lit "jobPositions") d));
    cbn [py_iter mbind result_bind]; try discriminate;
    apply collect_ids_no_request_exception.
Qed.

(** [get_job_list] requests its page once, leaves the crawler as it is, and
    returns [list_result]. *)
Lemma get_job_list_eq page self :
  get_job_list w page self
  = (list_result w page, self,
     Get (ListingPage page)
     :: match respond w (ListingPage page) with
        | RequestFailed => [Log ERROR ErrorFetchingList]
        | Body data =>
            match listed_ids data with
            | Return [] => [Log WARNING (NoDataForPage page)]
            | _ => []
            end
        end).
Proof.
  unfold get_job_list, list_result, try_except, fetch, emit, lift.
  unfold mbind, M_bind, mret, M_ret.
  destruct (respond w (ListingPage page)) as [|data]; [reflexivity|].
  pose proof (listed_ids_no_request_exception data) as Hne.
  destruct (listed_ids data) as [[|id ids]|e]; try reflexivity.
  simpl. destruct e; try reflexivity. congruence.
Qed.

(** C5, amended: on a response whose [jobPositions] (an empty list when
    absent) is a list of objects, [get_job_list] returns, in order and with
    repeats, the string form of the [id] of every entry whose [id] is true in
    the Python sense: not null, [False], zero or empty; on a request failure
    it logs the error and returns the empty list. *)
Theorem get_job_list_truthy_ids (page : Z) (self : crawler) :
  (forall data items,
     respond w (ListingPage page) = Body data ->
     py_get data (lit "jobPositions") (JArr []) = Return (JArr items) ->
     Forall is_object items ->
     outcome (get_job_list w page self)
     = Return (map py_str (List.filter truthy (map entry_id items))) /\
     final (get_job_list w page self) = self /\
     requested_pages (trace (get_job_list w page self)) = [page]) /\
  (respond w (ListingPage page) = RequestFailed ->
   get_job_list w page self
   = (Return [], self,
      [Get (ListingPage page); Log ERROR ErrorFetchingList])).
Proof.
  rewrite get_job_list_eq. unfold outcome, final, trace, list_result.
  cbn [fst snd]. split.
  - intros data items -> Hpos Hitems. split; [|split; [reflexivity|]].
    + unfold listed_ids. rewrite Hpos. cbn [mbind result_bind py_iter].
      apply collect_ids_objects, Hitems.
    + destruct (listed_ids data) as [[|]|]; reflexivity.
  - intros ->. reflexivity.
Qed.

End Listing.

Lemma get_job_list_truthy_ids_witness :
  outcome (get_job_list (runtime := sample_runtime)
             (service [[obj1 "id" (JInt 7); obj1 "name" JNull;
                        obj1 "id" (JStr (lit "x9"))]]
                (fun _ => RequestFailed))
             1 new_crawler)
  = Return [lit "7"; lit "x9"] /\
  get_job_list (runtime := sample_runtime) (world_of (fun _ => RequestFailed))
    3 new_crawler
  = (Return [], new_crawler,
     [Get (ListingPage 3); Log ERROR ErrorFetchingList]).
Proof.
  split.
  - refine (proj1 (proj1 (get_job_list_truthy_ids (runtime := sample_runtime)
                            (service [[obj1 "id" (JInt 7); obj1 "name" JNull;
                                       obj1 "id" (JStr (lit "x9"))]]
                               (fun _ => RequestFailed))
                            1 new_crawler)
                     _ [obj1 "id" (JInt 7); obj1 "name" JNull;
                        obj1 "id" (JStr (lit "x9"))]
                     eq_refl eq_refl _)).
    repeat constructor; eexists; reflexivity.
  - apply (get_job_list_truthy_ids (runtime := sample_runtime)). reflexivity.
Defined.

(** C5 as stated fails: an entry whose identifier is zero, which is not
    null, is skipped; and an identifier listed twice is returned twice. *)
Lemma get_job_list_skips_zero :
  outcome (get_job_list (runtime := sample_runtime)
             (service [[obj1 "id" (JInt 0)]] (fun _ => RequestFailed))
             1 new_crawler)
  = Return [] /\
  map (py_str (runtime := sample_runtime))
    (List.filter (fun v => negb (is_none v))
       (map entry_id [obj1 "id" (JInt 0)]))
  = [lit "0"] /\
  outcome (get_job_list (runtime := sample_runtime)
             (service [[obj1 "id" (JInt 7); obj1 "id" (JInt 7)]]
                (fun _ => RequestFailed))
             1 new_crawler)
  = Return [lit "7"; lit "7"].
Proof. repeat split; vm_compute; reflexivity. Qed.

(** ** The two phases of [crawl] *)

Section Crawl.

Context {runtime : PyRuntime} (w : world).

Lemma get_job_list_outcome page self :
  outcome (get_job_list w page self) = list_result w page.
Proof. rewrite get_job_list_eq. reflexivity. Qed.

Lemma get_job_list_requests page self :
  requested_pages (trace (get_job_list w page self)) = [page] /\
  detail_requests (trace (get_job_list w page self)) = [].
Proof.
  rewrite get_job_list_eq. unfold trace. cbn [snd].
  destruct (respond w (ListingPage page)) as [|data]; [split; reflexivity|].
  destruct (listed_ids data) as [[|]|]; split; reflexivity.
Qed.

(** One turn of the first loop. *)
Lemma discover_cons page rest self :
  discover w (page :: rest) self
  = match list_result w page with
    | Return [] =>
        (Return tt, self,
         trace (get_job_list w page self) ++ [Log INFO NoMoreJobs])
    | Return (id :: ids) =>
        let self' := {| job_ids := job_ids self ∪ list_to_set (id :: ids);
                        results := results self |} in
        (outcome (discover w rest self'), final (discover w rest self'),
         trace (get_job_list w page self)
         ++ [Log INFO (Collected (size (job_ids self'))); Sleep]
         ++ trace (discover w rest self'))
    | Raise e => (Raise e, self, trace (get_job_list w page self))
    end.
Proof.
  cbn [discover]. unfold mbind, M_bind at 1.
  rewrite get_job_list_eq. unfold trace. cbn [snd].
  destruct (list_result w page) as [[|id ids]|e]; [reflexivity| |reflexivity].
  cbn [nonempty negb]. unfold mbind, M_bind, get_self, set_self, emit.
  cbn [app]. unfold outcome, final.
  destruct (discover w rest _) as [[r s] t]. reflexivity.
Qed.

Lemma job_ids_union_nil (ids : gset (list N)) :
  ids = ids ∪ list_to_set [].
Proof. rewrite list_to_set_nil, (right_id_L ∅ (∪)). reflexivity. Qed.

Lemma discover_run pages : forall self,
  requested_pages (trace (discover w pages self)) = visited w pages /\
  detail_requests (trace (discover w pages self)) = [] /\
  job_ids (final (discover w pages self))
  = job_ids self ∪ list_to_set (gathered w pages) /\
  results (final (discover w pages self)) = results self.
Proof.
  induction pages as [|page rest IH]; intros self.
  - cbn. repeat split. apply job_ids_union_nil.
  - rewrite discover_cons. cbn [visited gathered].
    destruct (get_job_list_requests page self) as [Hp Hd].
    destruct (list_result w page) as [[|id ids]|e]; unfold trace, final;
      cbn [fst snd].
    + unfold requested_pages, detail_requests in *. rewrite !omap_app.
      fold (trace (get_job_list w page self)). rewrite Hp, Hd.
      repeat split. apply job_ids_union_nil.
    + destruct (IH {| job_ids := job_ids self ∪ list_to_set (id :: ids);
                      results := results self |}) as (Hp' & Hd' & Hj & Hr).
      unfold requested_pages, detail_requests in *. rewrite !omap_app.
      fold (trace (get_job_list w page self)). rewrite Hp, Hd.
      unfold trace, final in *. rewrite Hp', Hd', Hj, Hr. cbn [job_ids results].
      repeat split.
      rewrite (list_to_set_app_L (id :: ids)), (assoc_L (∪)). reflexivity.
    + fold (trace (get_job_list w page self)). rewrite Hp, Hd.
      repeat split. apply job_ids_union_nil.
Qed.

Lemma detail_result_nonempty job_id d :
  detail_result w job_id = Some d -> nonempty d = true.
Proof.
  unfold detail_result. destruct (respond w (Detail job_id)); [discriminate|].
  destruct (job_detail_of data) as [r|] eqn:E; [|discriminate].
  intros [= <-].
  destruct (job_detail_of_inv _ _ E)
    as (? & ? & ? & ? & ? & ? & ? & ? & _ & _ & _ & _ & _ & _ & _ & _ & ->).
  reflexivity.
Qed.

Lemma get_job_detail_requests job_id self :
  requested_pages (trace (get_job_detail w job_id self)) = [] /\
  detail_requests (trace (get_job_detail w job_id self)) = [job_id].
Proof.
  rewrite get_job_detail_eq. unfold trace. cbn [snd].
  destruct (respond w (Detail job_id)) as [|data]; [split; reflexivity|].
  destruct (job_detail_of data); split; reflexivity.
Qed.

(** One turn of the second loop. *)
Lemma enrich_cons job_id rest self :
  enrich w (job_id :: rest) self
  = let self' :=
      match detail_result w job_id with
      | Some d => {| job_ids := job_ids self; results := results self ++ [d] |}
      | None => self
      end in
    (outcome (enrich w rest self'), final (enrich w rest self'),
     trace (get_job_detail w job_id self)
     ++ Sleep :: trace (enrich w rest self')).
Proof.
  cbn [enrich]. unfold mbind, M_bind at 1.
  rewrite get_job_detail_eq. unfold trace, outcome, final. cbn [snd].
  destruct (detail_result w job_id) as [d|] eqn:E.
  - rewrite (detail_result_nonempty _ _ E).
    unfold mbind, M_bind, mret, M_ret, get_self, set_self, emit. cbn [app].
    destruct (enrich w rest _) as [[r s] t]. reflexivity.
  - unfold mbind, M_bind, mret, M_ret, emit. cbn [app].
    destruct (enrich w rest _) as [[r s] t]. reflexivity.
Qed.

Lemma enrich_run ids : forall self,
  outcome (enrich w ids self) = Return tt /\
  requested_pages (trace (enrich w ids self)) = [] /\
  detail_requests (trace (enrich w ids self)) = ids /\
  job_ids (final (enrich w ids self)) = job_ids self /\
  results (final (enrich w ids self))
  = results self ++ omap (detail_result w) ids.
Proof.
  induction ids as [|job_id rest IH]; intros self.
  - cbn. rewrite app_nil_r. repeat split.
  - rewrite enrich_cons. cbv zeta. unfold outcome, final, trace. cbn [fst snd].
    destruct (get_job_detail_requests job_id self) as [Hp Hd].
    match goal with
    | |- context [enrich w rest ?s] =>
        destruct (IH s) as (Ho & Hp' & Hd' & Hj & Hr)
    end.
    unfold outcome, final, trace, requested_pages, detail_requests in *.
    rewrite !omap_app. cbn [omap list_omap]. rewrite Ho, Hp, Hd, Hp', Hd', Hj, Hr.
    repeat split.
    + destruct (detail_result w job_id); reflexivity.
    + destruct (detail_result w job_id) as [d|]; cbn [results];
        [rewrite <- app_assoc|]; reflexivity.
Qed.

(** The whole of [crawl]: the first loop, then, if it returns, the second. *)
Lemma crawl_eq max_pages self :
  crawl w max_pages self
  = let d := discover w (py_range 1 (max_pages + 1)) self in
    match outcome d with
    | Return _ =>
        let e := enrich w (set_iter (job_ids (final d))) (final d) in
        (Return tt, final e,
         Log INFO Starting
         :: trace d ++ trace e
            ++ [Log INFO (Completed (length (results (final e))))])
    | Raise e => (Raise e, final d, Log INFO Starting :: trace d)
    end.
Proof.
  unfold crawl. unfold mbind, M_bind at 1. unfold emit at 1. cbn [app].
  unfold mbind, M_bind at 1. cbv zeta. unfold outcome, final, trace.
  destruct (discover w (py_range 1 (max_pages + 1)) self) as [[[[]|e] s1] t1];
    cbn [fst snd]; [|reflexivity].
  unfold mbind, M_bind at 1. unfold get_self at 1.
  unfold mbind, M_bind at 1.
  destruct (enrich_run (set_iter (job_ids s1)) s1) as (Ho & _).
  unfold outcome in Ho.
  destruct (enrich w (set_iter (job_ids s1)) s1) as [[r s2] t2].
  cbn [fst] in Ho. subst r.
  unfold mbind, M_bind, get_self, emit. cbn [fst snd app]. reflexivity.
Qed.

Lemma py_range_In lo hi p : In p (py_range lo hi) <-> lo <= p < hi.
Proof.
  unfold py_range. rewrite in_map_iff. split.
  - intros (i & <- & Hi). apply in_seq in Hi. lia.
  - intros Hp. exists (Z.to_nat (p - lo)). split; [lia|].
    apply in_seq. lia.
Qed.

Lemma map_seq_shift (lo : Z) (a n : nat) :
  map (fun i => lo + Z.of_nat i) (seq a n)
  = map (fun i => lo + Z.of_nat a + Z.of_nat i) (seq 0 n).
Proof.
  rewrite <- (Nat.add_0_r a) at 1. generalize 0%nat as b.
  induction n as [|n IH]; intros b; [reflexivity|].
  cbn [seq map]. f_equal; [lia|].
  rewrite <- Nat.add_succ_r. apply IH.
Qed.

Lemma py_range_app lo mid hi :
  lo <= mid <= hi -> py_range lo hi = py_range lo mid ++ py_range mid hi.
Proof.
  intros Hm. unfold py_range.
  replace (Z.to_nat (hi - lo))
    with (Z.to_nat (mid - lo) + Z.to_nat (hi - mid))%nat by lia.
  rewrite seq_app, map_app. f_equal.
  rewrite Nat.add_0_l, map_seq_shift.
  replace (lo + Z.of_nat (Z.to_nat (mid - lo))) with mid by lia.
  reflexivity.
Qed.

Lemma py_range_one lo : py_range lo (lo + 1) = [lo].
Proof.
  unfold py_range. replace (lo + 1 - lo) with 1 by lia.
  change (Z.to_nat 1) with 1%nat. cbn [seq map Z.of_nat].
  rewrite Z.add_0_r. reflexivity.
Qed.

Lemma visited_all pages :
  (forall p, In p pages -> exists id ids, list_result w p = Return (id :: ids)) ->
  visited w pages = pages.
Proof.
  induction pages as [|page rest IH]; intros Hall; [reflexivity|].
  cbn [visited]. destruct (Hall page (or_introl eq_refl)) as (id & ids & ->).
  f_equal. apply IH. intros p Hp. apply Hall. right. exact Hp.
Qed.

Lemma visited_stop before page after :
  (forall p, In p before -> exists id ids, list_result w p = Return (id :: ids)) ->
  list_result w page = Return [] ->
  visited w (before ++ page :: after) = before ++ [page].
Proof.
  intros Hall Hempty. induction before as [|b before IH]; cbn [app visited].
  - rewrite Hempty. reflexivity.
  - destruct (Hall b (or_introl eq_refl)) as (id & ids & ->).
    f_equal. apply IH. intros p Hp. apply Hall. right. exact Hp.
Qed.

Lemma crawl_requested_pages max_pages self :
  requested_pages (trace (crawl w max_pages self))
  = visited w (py_range 1 (max_pages + 1)).
Proof.
  rewrite crawl_eq. cbv zeta.
  destruct (discover_run (py_range 1 (max_pages + 1)) self) as (Hp & _).
  destruct (outcome (discover w (py_range 1 (max_pages + 1)) self)).
  - match goal with
    | |- context [enrich w ?ids ?s] =>
        destruct (enrich_run ids s) as (_ & Hp' & _)
    end.
    unfold trace, requested_pages in *. cbn [snd omap list_omap].
    rewrite !omap_app, Hp, Hp'. cbn. apply app_nil_r.
  - unfold trace, requested_pages in *. cbn [snd omap list_omap]. exact Hp.
Qed.

(** C6: the first page that returns no identifier ends the discovery, and no
    later page is requested; when every page up to the cap returns some, the
    pages 1 to the cap are requested, in increasing order. *)
Theorem discovery_stops_at_first_empty_page (max_pages : Z) (self : crawler) :
  (forall k,
     1 <= k <= max_pages ->
     (forall j st, 1 <= j < k ->
        exists id ids, outcome (get_job_list w j st) = Return (id :: ids)) ->
     (forall st, outcome (get_job_list w k st) = Return []) ->
     requested_pages (trace (crawl w max_pages self)) = py_range 1 (k + 1)) /\
  ((forall j st, 1 <= j <= max_pages ->
      exists id ids, outcome (get_job_list w j st) = Return (id :: ids)) ->
   requested_pages (trace (crawl w max_pages self))
   = py_range 1 (max_pages + 1)).
Proof.
  rewrite crawl_requested_pages. split.
  - intros k Hk Hbefore Hempty.
    rewrite (py_range_app 1 k (max_pages + 1)) by lia.
    rewrite (py_range_app k (k + 1) (max_pages + 1)) by lia.
    rewrite (py_range_app 1 k (k + 1)) by lia.
    rewrite py_range_one. apply visited_stop.
    + intros p Hp. apply py_range_In in Hp.
      destruct (Hbefore p self Hp) as (id & ids & E).
      rewrite get_job_list_outcome in E. eauto.
    + rewrite <- (get_job_list_outcome k self). apply Hempty.
  - intros Hall. apply visited_all. intros p Hp. apply py_range_In in Hp.
    destruct (Hall p self ltac:(lia)) as (id & ids & E).
    rewrite get_job_list_outcome in E. eauto.
Qed.

Lemma crawl_run max_pages self :
  let d := discover w (py_range 1 (max_pages + 1)) self in
  match outcome d with
  | Return _ =>
      outcome (crawl w max_pages self) = Return tt /\
      detail_requests (trace (crawl w max_pages self))
      = set_iter (job_ids (final d)) /\
      job_ids (final (crawl w max_pages self)) = job_ids (final d) /\
      results (final (crawl w max_pages self))
      = results self ++ omap (detail_result w) (set_iter (job_ids (final d)))
  | Raise e =>
      outcome (crawl w max_pages self) = Raise e /\
      detail_requests (trace (crawl w max_pages self)) = []
  end.
Proof.
  cbv zeta. rewrite crawl_eq. cbv zeta.
  destruct (discover_run (py_range 1 (max_pages + 1)) self)
    as (_ & Hd & _ & Hr).
  destruct (outcome (discover w (py_range 1 (max_pages + 1)) self)).
  - match goal with
    | |- context [enrich w ?ids ?s] =>
        destruct (enrich_run ids s) as (_ & _ & Hd' & Hj & Hr')
    end.
    unfold outcome, final, trace, detail_requests in *. cbn [fst snd].
    cbn [omap list_omap]. rewrite !omap_app, Hd, Hd', Hj, Hr', Hr.
    cbn. rewrite app_nil_r. repeat split.
  - unfold outcome, trace, detail_requests in *. cbn [fst snd omap list_omap].
    split; [reflexivity|exact Hd].
Qed.

Lemma count_fetched (ids : list (list N)) :
  length (omap (detail_result w) ids)
  = length (filter (fun job_id => is_Some (detail_result w job_id)) ids).
Proof.
  induction ids as [|a l IH]; [reflexivity|].
  rewrite filter_cons. cbn [omap list_omap].
  destruct (detail_result w a) as [d|].
  - rewrite decide_True by eauto. cbn. f_equal. exact IH.
  - rewrite decide_False by (intros [? ?]; discriminate). exact IH.
Qed.

(** C7: the second loop requests the detail of every identifier it is given
    once and returns, whatever the requests give; the records added are
    those of the identifiers whose fetch returned one.  So a crawl whose
    discovery returns requests every identifier of the set once, and its
    results grow by the number of identifiers whose fetch returned a
    record. *)
Theorem enrichment_attempts_each_once (max_pages : Z) (self : crawler) :
  (forall job_id st,
     outcome (get_job_detail w job_id st) = Return (detail_result w job_id)) /\
  (forall ids st,
     outcome (enrich w ids st) = Return tt /\
     detail_requests (trace (enrich w ids st)) = ids /\
     results (final (enrich w ids st))
     = results st ++ omap (detail_result w) ids) /\
  (outcome (discover w (py_range 1 (max_pages + 1)) self) = Return tt ->
   let run := crawl w max_pages self in
   outcome run = Return tt /\
   detail_requests (trace run) ≡ₚ elements (job_ids (final run)) /\
   NoDup (detail_requests (trace run)) /\
   length (results (final run))
   = (length (results self)
      + length (filter (fun job_id => is_Some (detail_result w job_id))
                  (elements (job_ids (final run)))))%nat).
Proof.
  split; [intros job_id st; rewrite get_job_detail_eq; reflexivity|].
  split.
  - intros ids st. destruct (enrich_run ids st) as (Ho & _ & Hd & _ & Hr).
    repeat split; assumption.
  - intros Hdisc. cbv zeta. pose proof (crawl_run max_pages self) as Hrun.
    cbv zeta in Hrun. rewrite Hdisc in Hrun.
    destruct Hrun as (Ho & Hd & Hj & Hr). rewrite Ho, Hd, Hj, Hr.
    split; [reflexivity|]. split; [apply set_iter_perm|].
    split; [rewrite set_iter_perm; apply NoDup_elements|].
    rewrite length_app, count_fetched, set_iter_perm. reflexivity.
Qed.

(** C9: the identifiers accumulated by the first loop are those it had
    with those the pages gave, each of them once, however often the pages
    repeat it; and a crawl requests no detail twice. *)
Theorem job_ids_without_duplicates (pages : list Z) (self : crawler) :
  let run := discover w pages self in
  (forall page st, outcome (get_job_list w page st) = list_result w page) /\
  job_ids (final run) = job_ids self ∪ list_to_set (gathered w pages) /\
  NoDup (set_iter (job_ids (final run))) /\
  (forall job_id,
     In job_id (set_iter (job_ids (final run)))
     <-> job_id ∈ job_ids self \/ In job_id (gathered w pages)) /\
  (forall max_pages,
     NoDup (detail_requests (trace (crawl w max_pages self)))).
Proof.
  cbv zeta. destruct (discover_run pages self) as (_ & _ & Hj & _).
  split; [intros page st; apply get_job_list_outcome|].
  split; [exact Hj|].
  split; [rewrite set_iter_perm; apply NoDup_elements|]. split.
  - intros job_id. rewrite <- list_elem_of_In, set_iter_perm, elem_of_elements.
    rewrite Hj, elem_of_union, elem_of_list_to_set, list_elem_of_In.
    reflexivity.
  - intros max_pages. pose proof (crawl_run max_pages self) as Hrun.
    cbv zeta in Hrun.
    destruct (outcome (discover w (py_range 1 (max_pages + 1)) self)).
    + destruct Hrun as (_ & -> & _).
      rewrite set_iter_perm. apply NoDup_elements.
    + destruct Hrun as (_ & ->). constructor.
Qed.

End Crawl.

(** ** The export *)

Section SaveToCsv.

Context {runtime : PyRuntime} {pandas : Pandas} (w : world).








Lemma join_or_str_strs (l : list (list N)) :
  join_or_str (strs l) = Return (bar_joined l).
Proof.
  unfold join_or_str, strs, bar_joined.
  assert (mapM (fun e => match e with
                         | JStr s => Return s
                         | _ => Raise TypeError
                         end) (map JStr l) = Return l) as ->.
  { induction l as [|s l IH]; [reflexivity|].
    cbn [map mapM mbind result_bind]. rewrite IH. reflexivity. }
  reflexivity.
Qed.






Lemma py_or_strs (l fallback : list (list N)) :
  py_or (strs l) (strs fallback)
  = strs (if nonempty l then l else fallback).
Proof. destruct l; reflexivity. Qed.

Lemma all_strings (l : list json) :
  Forall (fun e => exists s, e = JStr s) l -> exists l', l = map JStr l'.
Proof.
  induction 1 as [|x xs [s ->] _ [l' ->]].
  - exists []. reflexivity.
  - exists (s :: l'). reflexivity.
Qed.

(** What [get_job_detail] builds is such a record as soon as the names of
    the tags are strings. *)
Lemma job_detail_is_record data d :
  job_detail_of data = Return d ->
  (forall tech, dict_lookup (lit "tech_stack") d = Some (JArr tech) ->
     Forall (fun e => exists s, e = JStr s) tech) ->
  exists r, d = to_dict r.
Proof.
  intros Hd Htech.
  destruct (job_detail_of_inv _ _ Hd)
    as (jp & cat_ids & tags & tech & lines & comp & pref & welf
        & _ & _ & _ & _ & _ & _ & _ & _ & ->).
  assert (exists l, py_or (JArr tech) (strs [no_tech_stack]) = strs l)
    as [l Hl].
  { destruct tech as [|e tech]; [exists [no_tech_stack]; reflexivity|].
    specialize (Htech (e :: tech) eq_refl).
    destruct (all_strings _ Htech) as [l Hl].
    exists l. unfold py_or, strs. cbn [truthy]. rewrite Hl. reflexivity. }
  rewrite Hl, !py_or_strs.
  replace (py_or (JArr (map (fun cat_id => JStr (py_str cat_id)) cat_ids))
             (strs [no_category]))
    with (strs (if nonempty (map py_str cat_ids)
                then map py_str cat_ids else [no_category]))
    by (rewrite <- py_or_strs; unfold strs; rewrite map_map; reflexivity).
  eexists {| rec_title := _; rec_intro := _; rec_category := _;
             rec_comp_name := _; rec_comp_addr := _; rec_role := _;
             rec_requirement := _; rec_preferred := _; rec_due := _;
             rec_tech_stack := _; rec_welfare := _; rec_procedure := _ |}.
  reflexivity.
Qed.


End SaveToCsv.

(** ** Runs of the crawl and of the export *)

Lemma discovery_stops_at_first_empty_page_witness :
  requested_pages
    (trace (crawl (runtime := sample_runtime)
              (service [[obj1 "id" (JInt 1)]; [obj1 "id" (JInt 2)]; [];
                        [obj1 "id" (JInt 4)]]
                 (fun _ => RequestFailed))
              10 new_crawler))
  = [1; 2; 3] /\
  requested_pages
    (trace (crawl (runtime := sample_runtime)
              (service [[obj1 "id" (JInt 1)]; [obj1 "id" (JInt 2)];
                        [obj1 "id" (JInt 3)]]
                 (fun _ => RequestFailed))
              2 new_crawler))
  = [1; 2].
Proof.
  split.
  - apply (proj1 (discovery_stops_at_first_empty_page (runtime := sample_runtime)
                    (service [[obj1 "id" (JInt 1)]; [obj1 "id" (JInt 2)]; [];
                              [obj1 "id" (JInt 4)]]
                       (fun _ => RequestFailed))
                    10 new_crawler) 3).
    + lia.
    + intros j st Hj. assert (j = 1 \/ j = 2) as [-> | ->] by lia;
        eexists _, _; vm_compute; reflexivity.
    + intros st. vm_compute. reflexivity.
  - apply (proj2 (discovery_stops_at_first_empty_page (runtime := sample_runtime)
                    (service [[obj1 "id" (JInt 1)]; [obj1 "id" (JInt 2)];
                              [obj1 "id" (JInt 3)]]
                       (fun _ => RequestFailed))
                    2 new_crawler)).
    intros j st Hj. assert (j = 1 \/ j = 2) as [-> | ->] by lia;
      eexists _, _; vm_compute; reflexivity.
Defined.

(** Two identifiers, the detail of the first of which cannot be fetched. *)
Lemma enrichment_attempts_each_once_witness :
  outcome (crawl (runtime := sample_runtime)
             (service [[obj1 "id" (JInt 1); obj1 "id" (JInt 2)]]
                (fun job_id =>
                   if bool_decide (job_id = lit "1") then RequestFailed
                   else Body (obj1 "jobPosition" (JObj []))))
             10 new_crawler)
  = Return tt /\
  length (detail_requests
            (trace (crawl (runtime := sample_runtime)
                      (service [[obj1 "id" (JInt 1); obj1 "id" (JInt 2)]]
                         (fun job_id =>
                            if bool_decide (job_id = lit "1") then RequestFailed
                            else Body (obj1 "jobPosition" (JObj []))))
                      10 new_crawler)))
  = 2%nat /\
  length (results (final (crawl (runtime := sample_runtime)
             (service [[obj1 "id" (JInt 1); obj1 "id" (JInt 2)]]
                (fun job_id =>
                   if bool_decide (job_id = lit "1") then RequestFailed
                   else Body (obj1 "jobPosition" (JObj []))))
             10 new_crawler)))
  = 1%nat.
Proof.
  destruct (proj2 (proj2 (enrichment_attempts_each_once (runtime := sample_runtime)
              (service [[obj1 "id" (JInt 1); obj1 "id" (JInt 2)]]
                 (fun job_id =>
                    if bool_decide (job_id = lit "1") then RequestFailed
                    else Body (obj1 "jobPosition" (JObj []))))
              10 new_crawler)) eq_refl) as (Ho & Hp & _ & Hl).
  split; [exact Ho|]. split.
  - rewrite Hp. vm_compute. reflexivity.
  - rewrite Hl. vm_compute. reflexivity.
Defined.

(** The identifier 7 is on both pages and is requested once. *)
Lemma job_ids_without_duplicates_witness :
  length (detail_requests
            (trace (crawl (runtime := sample_runtime)
                      (service [[obj1 "id" (JInt 7)];
                                [obj1 "id" (JInt 7); obj1 "id" (JInt 8)]]
                         (fun _ => RequestFailed))
                      10 new_crawler)))
  = 2%nat /\
  NoDup (detail_requests
           (trace (crawl (runtime := sample_runtime)
                     (service [[obj1 "id" (JInt 7)];
                               [obj1 "id" (JInt 7); obj1 "id" (JInt 8)]]
                        (fun _ => RequestFailed))
                     10 new_crawler))).
Proof.
  split.
  - vm_compute. reflexivity.
  - apply (job_ids_without_duplicates (runtime := sample_runtime)
             (service [[obj1 "id" (JInt 7)];
                       [obj1 "id" (JInt 7); obj1 "id" (JInt 8)]]
                (fun _ => RequestFailed))
             (py_range 1 11) new_crawler).
Defined.



(** * Further properties *)

(** ** Which responses give a result *)

Section Shapes.

Context {runtime : PyRuntime} (w : world).

Lemma py_get_returns v key dflt x :
  py_get v key dflt = Return x ->
  exists d, v = JObj d /\ x = default dflt (dict_lookup key d).
Proof.
  destruct v; try discriminate. rewrite py_get_obj. intros [= <-]. eauto.
Qed.

Lemma py_iter_returns v : (exists l, py_iter v = Return l) <-> iterable v = true.
Proof.
  destruct v; simpl; split; intros E; try discriminate; eauto;
    destruct E; discriminate.
Qed.

Lemma get_name_objects (tags : list json) :
  (exists l, mapM (fun tag => py_get tag (lit "name") (JStr [])) tags = Return l)
  <-> forallb is_obj tags = true.
Proof.
  induction tags as [|tag tags IH]; cbn [mapM forallb].
  - split; eauto.
  - destruct tag as [|b|z|f|s|l0|d]; cbn [py_get is_obj andb mbind result_bind];
      try (split; [intros [l E]; discriminate E|discriminate]).
    fold (py_get (JObj d) (lit "name") (JStr [])). rewrite py_get_obj.
    cbn [mbind result_bind]. rewrite <- IH. split.
    + intros [l E].
      destruct (mapM _ tags) as [l'|]; [eauto|discriminate E].
    + intros [l' ->]. cbn. eauto.
Qed.

Lemma tags_returns (v : json) :
  (exists l, py_iter v ≫= mapM (fun tag => py_get tag (lit "name") (JStr []))
             = Return l)
  <-> objects_only v = true.
Proof.
  destruct v as [|b|z|f|s|l|d]; cbn [py_iter objects_only mbind result_bind];
    try (split; [intros [l' E]; discriminate E|discriminate]).
  - destruct s as [|c s]; cbn; split; eauto; try discriminate.
    intros [l' E]. discriminate E.
  - apply get_name_objects.
  - destruct d as [|[k x] d]; cbn; split; eauto; try discriminate.
    intros [l' E]. discriminate E.
Qed.

Lemma safe_split_returns (text : json) :
  (exists l, safe_split text [newline] = Return l) <-> splittable text = true.
Proof.
  unfold safe_split, splittable. destruct (truthy text); cbn [negb orb].
  - destruct text as [|b|z|f|s|l0|d];
      cbn [remove_bullets is_str mbind result_bind];
      try (split; [intros [l E]; discriminate E|discriminate]).
    split; [reflexivity|]. intros _. cbn. eauto.
  - split; eauto.
Qed.

Lemma job_detail_of_shape data :
  (exists r, job_detail_of data = Return r) <-> posting_ok data = true.
Proof.
  split.
  - intros [r Hr].
    destruct (job_detail_of_inv _ _ Hr)
      as (d & cat_ids & tags & tech & lines & comp & pref & welf
          & Hjp & Ecat & Etags & Etech & Elines & _ & Epref & Ewelf & _).
    apply py_get_returns in Hjp as (top & -> & Hd).
    unfold posting_ok. rewrite <- Hd. rewrite !andb_true_iff.
    repeat split.
    + apply py_iter_returns. eauto.
    + apply tags_returns. exists tech. rewrite Etags. exact Etech.
    + apply safe_split_returns. eauto.
    + apply safe_split_returns. eauto.
    + apply safe_split_returns. eauto.
  - unfold posting_ok. destruct data as [|b|z|f|s|l|top]; try discriminate.
    destruct (default (JObj []) (dict_lookup (lit "jobPosition") top))
      as [|b|z|f|s|l|d] eqn:Hd; try discriminate.
    rewrite !andb_true_iff. intros ((((Hcat & Htags) & Hdesc) & Hpref) & Hwelf).
    apply py_iter_returns in Hcat as [cat_ids Ecat].
    apply tags_returns in Htags as [tech Etech].
    apply safe_split_returns in Hdesc as [lines Elines].
    apply safe_split_returns in Hpref as [pref Epref].
    apply safe_split_returns in Hwelf as [welf Ewelf].
    destruct (safe_get_total_raw (JObj d) [lit "company"; lit "name"]
                (JStr no_comp_name)) as [comp Ecomp].
    unfold job_detail_of. rewrite py_get_obj, Hd.
    cbn [mbind result_bind]. rewrite !py_get_obj.
    cbn [mbind result_bind]. rewrite Ecat. cbn [mbind result_bind].
    destruct (py_iter (default (JArr []) (dict_lookup (lit "technicalTags") d)))
      as [tags|]; [|discriminate Etech].
    cbn [mbind result_bind] in Etech |- *. rewrite Etech.
    cbn [mbind result_bind]. rewrite Elines. cbn [mbind result_bind].
    rewrite Ecomp. cbn [mbind result_bind]. rewrite Epref.
    cbn [mbind result_bind]. rewrite Ewelf. cbn [mbind result_bind mret result_ret].
    eauto.
Qed.

(** X1: [get_job_detail] returns a record exactly when the request succeeds
    and the response is an object whose [jobPosition] (an empty object when
    absent) is an object in which [jobCategoryIds] can be iterated,
    [technicalTags] gives objects only, and [description],
    [preferredExperience] and [additionalInformation] are each a string or
    false; otherwise it returns [None]. *)
Theorem get_job_detail_record_iff_shape (job_id : list N) (self : crawler) :
  ((exists r, outcome (get_job_detail w job_id self) = Return (Some r))
   <-> exists data,
         respond w (Detail job_id) = Body data /\ posting_ok data = true) /\
  (outcome (get_job_detail w job_id self) = Return None
   <-> respond w (Detail job_id) = RequestFailed
       \/ exists data,
            respond w (Detail job_id) = Body data /\ posting_ok data = false).
Proof.
  rewrite get_job_detail_eq. unfold outcome, detail_result. cbn [fst].
  destruct (respond w (Detail job_id)) as [|data].
  - split; split.
    + intros [r E]. discriminate E.
    + intros (data & E & _). discriminate E.
    + auto.
    + reflexivity.
  - pose proof (job_detail_of_shape data) as Hs.
    destruct (job_detail_of data) as [r|e]; split; split.
    + intros _. exists data. split; [reflexivity|]. apply Hs. eauto.
    + eauto.
    + discriminate.
    + intros [E|(data' & [= <-] & Hok)]; [discriminate E|].
      rewrite (proj1 Hs) in Hok by eauto. discriminate Hok.
    + intros [r E]. discriminate E.
    + intros (data' & [= <-] & Hok). apply Hs in Hok as [r E]. discriminate E.
    + intros _. right. exists data. split; [reflexivity|].
      destruct (posting_ok data); [|reflexivity].
      destruct (proj2 Hs eq_refl) as [r E]. discriminate E.
    + reflexivity.
Qed.

Lemma listed_ids_shape data :
  (exists ids, listed_ids data = Return ids) <-> listing_ok data = true.
Proof.
  unfold listed_ids, listing_ok.
  destruct data as [|b|z|f|s|l|top];
    try (split; [intros [ids E]; discriminate E|discriminate]).
  rewrite py_get_obj. cbn [mbind result_bind].
  destruct (default (JArr []) (dict_lookup (lit "jobPositions") top))
    as [|b|z|f|s|l|d]; cbn [py_iter objects_only mbind result_bind];
    try (split; [intros [ids E]; discriminate E|discriminate]).
  - destruct s as [|c s]; cbn; split; eauto; try discriminate.
    intros [ids E]. discriminate E.
  - split.
    + intros [ids E]. apply forallb_forall. intros item Hitem.
      revert ids E. induction l as [|a l IH]; intros ids E; [destruct Hitem|].
      cbn [collect_ids] in E. destruct a as [|b|z|f|s|l0|d];
        try discriminate E.
      destruct Hitem as [<-|Hitem]; [reflexivity|].
      rewrite !py_get_obj in E. cbn [mbind result_bind] in E.
      destruct (truthy _).
      * cbn [mbind result_bind] in E.
        destruct (collect_ids l) as [ids'|]; [|discriminate E]. eauto.
      * eauto.
    + intros Hall. eexists. apply collect_ids_objects.
      apply List.Forall_forall. intros item Hitem.
      rewrite forallb_forall in Hall. specialize (Hall item Hitem).
      destruct item; try discriminate Hall. eexists. reflexivity.
  - destruct d as [|[k x] d]; cbn; split; eauto; try discriminate.
    intros [ids E]. discriminate E.
Qed.

Lemma listed_ids_raises data e :
  listed_ids data = Raise e -> e = AttributeError \/ e = TypeError.
Proof.
  unfold listed_ids.
  destruct data as [|b|z|f|s|l|top]; try (intros [= <-]; auto).
  rewrite py_get_obj. cbn [mbind result_bind].
  destruct (default (JArr []) (dict_lookup (lit "jobPositions") top))
    as [|b|z|f|s|l|d]; cbn [py_iter mbind result_bind];
    try (intros [= <-]; auto).
  - generalize (map (fun c => JStr [c]) s). intros l. revert e.
    induction l as [|a l IH]; intros e E; [discriminate E|].
    cbn [collect_ids] in E. destruct a as [|b|z|f|s0|l0|d];
      try (inversion E; auto).
    rewrite !py_get_obj in E. cbn [mbind result_bind] in E.
    destruct (truthy _); [|eauto]. cbn [mbind result_bind] in E.
    destruct (collect_ids l); [discriminate E|]. inversion E; subst. eauto.
  - revert e. induction l as [|a l IH]; intros e E; [discriminate E|].
    cbn [collect_ids] in E. destruct a as [|b|z|f|s0|l0|d];
      try (inversion E; auto).
    rewrite !py_get_obj in E. cbn [mbind result_bind] in E.
    destruct (truthy _); [|eauto]. cbn [mbind result_bind] in E.
    destruct (collect_ids l); [discriminate E|]. inversion E; subst. eauto.
  - generalize (map (fun kv : list N * json => JStr (fst kv)) d).
    intros l. revert e.
    induction l as [|a l IH]; intros e E; [discriminate E|].
    cbn [collect_ids] in E. destruct a as [|b|z|f|s0|l0|d0];
      try (inversion E; auto).
    rewrite !py_get_obj in E. cbn [mbind result_bind] in E.
    destruct (truthy _); [|eauto]. cbn [mbind result_bind] in E.
    destruct (collect_ids l); [discriminate E|]. inversion E; subst. eauto.
Qed.

(** X2: on a response, [get_job_list] returns exactly when the body is an
    object whose [jobPositions] (an empty list when absent) gives objects
    only; on any other body it raises [AttributeError] or [TypeError], which
    its handler does not take; on a failed request it returns the empty
    list. *)
Theorem get_job_list_raises_iff_shape (page : Z) (self : crawler) :
  (forall data,
     respond w (ListingPage page) = Body data ->
     ((exists ids, outcome (get_job_list w page self) = Return ids)
      <-> listing_ok data = true) /\
     (listing_ok data = false ->
      exists e, outcome (get_job_list w page self) = Raise e /\
                (e = AttributeError \/ e = TypeError))) /\
  (respond w (ListingPage page) = RequestFailed ->
   outcome (get_job_list w page self) = Return []).
Proof.
  rewrite get_job_list_eq. unfold outcome, list_result. cbn [fst]. split.
  - intros data ->. split; [apply listed_ids_shape|].
    intros Hok. destruct (listed_ids data) as [ids|e] eqn:E.
    + rewrite (proj1 (listed_ids_shape data)) in Hok by eauto.
      discriminate Hok.
    + exists e. split; [reflexivity|]. eapply listed_ids_raises, E.
  - intros ->. reflexivity.
Qed.

End Shapes.

(** ** More on [crawl] *)

Section CrawlRuns.

Context {runtime : PyRuntime} (w : world).

Lemma sleeps_app t1 t2 : sleeps (t1 ++ t2) = (sleeps t1 + sleeps t2)%nat.
Proof. unfold sleeps. rewrite List.filter_app, length_app. reflexivity. Qed.

Lemma get_job_list_sleeps page self :
  sleeps (trace (get_job_list w page self)) = 0%nat.
Proof.
  rewrite get_job_list_eq. unfold trace. cbn [snd].
  destruct (respond w (ListingPage page)) as [|data]; [reflexivity|].
  destruct (listed_ids data) as [[|]|]; reflexivity.
Qed.

Lemma get_job_detail_sleeps job_id self :
  sleeps (trace (get_job_detail w job_id self)) = 0%nat.
Proof.
  rewrite get_job_detail_eq. unfold trace. cbn [snd].
  destruct (respond w (Detail job_id)) as [|data]; [reflexivity|].
  destruct (job_detail_of data); reflexivity.
Qed.

Lemma discover_outcome pages : forall self,
  outcome (discover w pages self) = discovery_result w pages /\
  sleeps (trace (discover w pages self))
  = length (List.filter (productive w) (visited w pages)).
Proof.
  induction pages as [|page rest IH]; intros self; [split; reflexivity|].
  rewrite discover_cons. cbn [discovery_result visited].
  pose proof (get_job_list_sleeps page self) as Hs.
  assert (productive w page
          = match list_result w page with
            | Return (_ :: _) => true
            | _ => false
            end) as Hp by reflexivity.
  destruct (list_result w page) as [[|id ids]|e];
    unfold outcome, trace in *; cbn [fst snd List.filter]; rewrite Hp.
  - rewrite sleeps_app, Hs. split; reflexivity.
  - cbn [length].
    match goal with
    | |- context [discover w rest ?s] => destruct (IH s) as [Ho Hs']
    end.
    unfold outcome, trace in *. rewrite Ho, !sleeps_app, Hs, Hs'.
    split; reflexivity.
  - rewrite Hs. split; reflexivity.
Qed.

Lemma enrich_sleeps ids : forall self,
  sleeps (trace (enrich w ids self)) = length ids.
Proof.
  induction ids as [|job_id rest IH]; intros self; [reflexivity|].
  rewrite enrich_cons. cbv zeta. unfold trace at 1. cbn [snd].
  rewrite sleeps_app, get_job_detail_sleeps.
  change (Sleep :: ?t) with ([Sleep] ++ t). rewrite sleeps_app, IH. reflexivity.
Qed.

Lemma discovery_result_stop before page after :
  (forall p, In p before -> productive w p = true) ->
  discovery_result w (before ++ page :: after)
  = match list_result w page with
    | Return [] => Return tt
    | Return (_ :: _) => discovery_result w after
    | Raise e => Raise e
    end.
Proof.
  intros Hall. induction before as [|b before IH]; [reflexivity|].
  cbn [app discovery_result].
  pose proof (Hall b (or_introl eq_refl)) as Hb. unfold productive in Hb.
  destruct (list_result w b) as [[|]|]; try discriminate Hb.
  apply IH. intros p Hp. apply Hall. right. exact Hp.
Qed.

Lemma visited_cut before page after :
  (forall p, In p before -> productive w p = true) ->
  productive w page = false ->
  visited w (before ++ page :: after) = before ++ [page] /\
  gathered w (before ++ page :: after) = gathered w before.
Proof.
  intros Hall Hpage. induction before as [|b before IH]; cbn [app visited gathered].
  - unfold productive in Hpage.
    destruct (list_result w page) as [[|]|]; try discriminate Hpage;
      split; reflexivity.
  - pose proof (Hall b (or_introl eq_refl)) as Hb. unfold productive in Hb.
    destruct (list_result w b) as [[|id ids]|]; try discriminate Hb.
    destruct IH as [Hv Hg]; [intros p Hp; apply Hall; right; exact Hp|].
    rewrite Hv, Hg. split; reflexivity.
Qed.

Lemma range_cut k max_pages :
  1 <= k <= max_pages ->
  py_range 1 (max_pages + 1)
  = py_range 1 k ++ k :: py_range (k + 1) (max_pages + 1).
Proof.
  intros Hk. rewrite (py_range_app 1 k (max_pages + 1)) by lia.
  rewrite (py_range_app k (k + 1) (max_pages + 1)) by lia.
  rewrite py_range_one. reflexivity.
Qed.

Lemma productive_outcome page st :
  (exists id ids, outcome (get_job_list w page st) = Return (id :: ids))
  <-> productive w page = true.
Proof.
  rewrite get_job_list_outcome. unfold productive.
  destruct (list_result w page) as [[|id ids]|]; split;
    try discriminate; eauto; intros (? & ? & E); discriminate E.
Qed.

(** What a crawl leaves, however it ends. *)
Lemma crawl_final max_pages self :
  outcome (crawl w max_pages self)
  = discovery_result w (py_range 1 (max_pages + 1)) /\
  job_ids (final (crawl w max_pages self))
  = job_ids self ∪ list_to_set (gathered w (py_range 1 (max_pages + 1))) /\
  results (final (crawl w max_pages self))
  = results self
    ++ omap (detail_result w) (detail_requests (trace (crawl w max_pages self))) /\
  sleeps (trace (crawl w max_pages self))
  = (length (List.filter (productive w)
               (requested_pages (trace (crawl w max_pages self))))
     + length (detail_requests (trace (crawl w max_pages self))))%nat.
Proof.
  rewrite crawl_requested_pages.
  pose proof (crawl_run w max_pages self) as Hrun. cbv zeta in Hrun.
  destruct (discover_run w (py_range 1 (max_pages + 1)) self)
    as (_ & _ & Hj & Hr).
  destruct (discover_outcome (py_range 1 (max_pages + 1)) self) as [Ho Hs].
  rewrite crawl_eq in *. cbv zeta in *.
  destruct (outcome (discover w (py_range 1 (max_pages + 1)) self))
    as [[]|e] eqn:Hd.
  - destruct Hrun as (Hout & Hreq & Hids & Hres).
    rewrite Hout, Hreq, Hids, Hres, <- Ho, Hj.
    repeat split. unfold trace at 1. cbn [snd].
    change (Log INFO Starting :: ?t) with ([Log INFO Starting] ++ t).
    rewrite !sleeps_app, Hs, enrich_sleeps. cbn. lia.
  - destruct Hrun as (Hout & Hreq).
    rewrite Hout, Hreq, <- Ho. unfold final, trace. cbn [fst snd].
    unfold final in Hj, Hr. rewrite Hj, Hr, app_nil_r. repeat split.
    change (Log INFO Starting :: ?t) with ([Log INFO Starting] ++ t).
    rewrite sleeps_app. unfold trace in Hs. rewrite Hs. cbn. lia.
Qed.

(** X3: when a listing page answers with a body [get_job_list] raises on,
    after pages that gave identifiers, [crawl] raises the same exception:
    the pages after it are not requested, no detail is requested and no
    record is added, while the identifiers of the earlier pages stay in the
    set. *)
Theorem crawl_aborts_on_malformed_listing (max_pages k : Z) (e : exn)
    (self : crawler) :
  1 <= k <= max_pages ->
  (forall j st, 1 <= j < k ->
     exists id ids, outcome (get_job_list w j st) = Return (id :: ids)) ->
  (forall st, outcome (get_job_list w k st) = Raise e) ->
  let run := crawl w max_pages self in
  outcome run = Raise e /\
  requested_pages (trace run) = py_range 1 (k + 1) /\
  detail_requests (trace run) = [] /\
  results (final run) = results self /\
  job_ids (final run) = job_ids self ∪ list_to_set (gathered w (py_range 1 k)).
Proof.
  intros Hk Hbefore Hraise. cbv zeta.
  assert (forall p, In p (py_range 1 k) -> productive w p = true) as Hprod.
  { intros p Hp. apply py_range_In in Hp.
    apply (productive_outcome p self). apply Hbefore. exact Hp. }
  specialize (Hraise self). rewrite get_job_list_outcome in Hraise.
  assert (productive w k = false) as Hpk.
  { unfold productive. rewrite Hraise. reflexivity. }
  destruct (crawl_final max_pages self) as (Ho & Hj & Hr & _).
  rewrite crawl_requested_pages.
  pose proof (crawl_run w max_pages self) as Hrun. cbv zeta in Hrun.
  destruct (discover_outcome (py_range 1 (max_pages + 1)) self) as [Hd _].
  rewrite Hd in Hrun.
  rewrite (range_cut k max_pages Hk) in *.
  rewrite (discovery_result_stop _ _ _ Hprod), Hraise in Ho, Hrun.
  destruct Hrun as [_ Hreq].
  destruct (visited_cut _ _ (py_range (k + 1) (max_pages + 1)) Hprod Hpk)
    as [Hv Hg].
  rewrite Hr, Hreq, Hj, Hg, Hv, app_nil_r.
  rewrite (py_range_app 1 k (k + 1)) by lia. rewrite py_range_one.
  repeat split. exact Ho.
Qed.

Lemma discover_logs_failure pages page : forall self,
  In page (visited w pages) ->
  respond w (ListingPage page) = RequestFailed ->
  In (Log ERROR ErrorFetchingList) (trace (discover w pages self)).
Proof.
  induction pages as [|p rest IH]; intros self Hin Hfail; [destruct Hin|].
  rewrite discover_cons. cbn [visited] in Hin.
  assert (p = page -> In (Log ERROR ErrorFetchingList)
                        (trace (get_job_list w p self))) as Hhere.
  { intros ->. rewrite get_job_list_eq. unfold trace. cbn [snd].
    rewrite Hfail. right. left. reflexivity. }
  destruct (list_result w p) as [[|id ids]|e0]; unfold trace at 1; cbn [snd].
  - destruct Hin as [Hin|[]]. apply in_or_app. left. auto.
  - apply in_or_app. destruct Hin as [Hin|Hin]; [left; auto|].
    right. apply in_or_app. right. eapply IH; eassumption.
  - destruct Hin as [Hin|[]]. auto.
Qed.

(** X4: a listing request that fails, after pages that gave identifiers, ends
    the discovery as an empty page does: the error is logged, the later
    pages are not requested, and the crawl goes on to fetch the details of
    the identifiers it has. *)
Theorem crawl_truncated_by_failed_request (max_pages k : Z) (self : crawler) :
  1 <= k <= max_pages ->
  (forall j st, 1 <= j < k ->
     exists id ids, outcome (get_job_list w j st) = Return (id :: ids)) ->
  respond w (ListingPage k) = RequestFailed ->
  let run := crawl w max_pages self in
  outcome run = Return tt /\
  requested_pages (trace run) = py_range 1 (k + 1) /\
  In (Log ERROR ErrorFetchingList) (trace run) /\
  job_ids (final run) = job_ids self ∪ list_to_set (gathered w (py_range 1 k)) /\
  detail_requests (trace run) ≡ₚ elements (job_ids (final run)).
Proof.
  intros Hk Hbefore Hfail. cbv zeta.
  assert (forall p, In p (py_range 1 k) -> productive w p = true) as Hprod.
  { intros p Hp. apply py_range_In in Hp.
    apply (productive_outcome p self). apply Hbefore. exact Hp. }
  assert (list_result w k = Return []) as Hempty.
  { unfold list_result. rewrite Hfail. reflexivity. }
  assert (productive w k = false) as Hpk.
  { unfold productive. rewrite Hempty. reflexivity. }
  destruct (visited_cut _ _ (py_range (k + 1) (max_pages + 1)) Hprod Hpk)
    as [Hv Hg].
  assert (In (Log ERROR ErrorFetchingList) (trace (crawl w max_pages self)))
    as Hlog.
  { assert (In (Log ERROR ErrorFetchingList)
              (trace (discover w (py_range 1 (max_pages + 1)) self))) as Hl.
    { apply (discover_logs_failure _ k); [|exact Hfail].
      rewrite (range_cut k max_pages Hk), Hv.
      apply in_or_app. right. left. reflexivity. }
    rewrite crawl_eq. cbv zeta.
    destruct (outcome (discover w (py_range 1 (max_pages + 1)) self));
      unfold trace at 1; cbn [snd]; right; [apply in_or_app; left|]; exact Hl. }
  destruct (crawl_final max_pages self) as (Ho & Hj & _ & _).
  rewrite crawl_requested_pages.
  pose proof (crawl_run w max_pages self) as Hrun. cbv zeta in Hrun.
  destruct (discover_outcome (py_range 1 (max_pages + 1)) self) as [Hd _].
  pose proof (discover_run w (py_range 1 (max_pages + 1)) self)
    as (_ & _ & Hjd & _).
  rewrite Hd in Hrun.
  rewrite (range_cut k max_pages Hk) in Ho, Hj, Hrun, Hjd |- *.
  rewrite (discovery_result_stop _ _ _ Hprod), Hempty in Ho, Hrun.
  destruct Hrun as (_ & Hreq & Hids & _).
  rewrite Hv. rewrite Hg in Hj.
  split; [exact Ho|]. split.
  { rewrite (py_range_app 1 k (k + 1)) by lia. rewrite py_range_one.
    reflexivity. }
  split; [exact Hlog|].
  split; [exact Hj|].
  rewrite Hreq, Hids. apply set_iter_perm.
Qed.

(** X5: a crawl pauses once after every listing page that gave identifiers
    and once after every detail request, and at no other time: in
    particular not after the page that ends the discovery. *)
Theorem crawl_sleeps (max_pages : Z) (self : crawler) :
  let run := crawl w max_pages self in
  (forall page st,
     productive w page = true
     <-> exists id ids, outcome (get_job_list w page st) = Return (id :: ids)) /\
  sleeps (trace run)
  = (length (List.filter (productive w) (requested_pages (trace run)))
     + length (detail_requests (trace run)))%nat.
Proof.
  cbv zeta. split.
  - intros page st. symmetry. apply productive_outcome.
  - apply crawl_final.
Qed.

(** X6: a crawl only adds: the identifiers the crawler had stay in the set,
    and the records it had stay, in order, before those of the details
    fetched in this crawl.  When the crawl returns, the details of the
    identifiers it had are fetched again with the new ones. *)
Theorem crawl_accumulates (max_pages : Z) (self : crawler) :
  let run := crawl w max_pages self in
  job_ids self ⊆ job_ids (final run) /\
  results (final run)
  = results self ++ omap (detail_result w) (detail_requests (trace run)) /\
  (outcome run = Return tt ->
   forall job_id, job_id ∈ job_ids self -> In job_id (detail_requests (trace run))).
Proof.
  cbv zeta. destruct (crawl_final max_pages self) as (Ho & Hj & Hr & _).
  split; [rewrite Hj; apply union_subseteq_l|]. split; [exact Hr|].
  intros Hret job_id Hin.
  pose proof (crawl_run w max_pages self) as Hrun. cbv zeta in Hrun.
  destruct (outcome (discover w (py_range 1 (max_pages + 1)) self)).
  - destruct Hrun as (_ & Hreq & Hids & _). rewrite Hreq, <- Hids.
    apply list_elem_of_In. rewrite set_iter_perm. apply elem_of_elements.
    rewrite Hj. apply elem_of_union. left. exact Hin.
  - destruct Hrun as [Hraise _]. rewrite Hraise in Hret. discriminate Hret.
Qed.

(** X7: with a page cap of zero or less, [crawl] requests no listing page and
    returns; it fetches the details of the identifiers the crawler holds,
    and on a new crawler it only logs its start and its end. *)
Theorem crawl_without_pages (max_pages : Z) (self : crawler) :
  max_pages <= 0 ->
  let run := crawl w max_pages self in
  outcome run = Return tt /\
  requested_pages (trace run) = [] /\
  job_ids (final run) = job_ids self /\
  detail_requests (trace run) = set_iter (job_ids self) /\
  crawl w max_pages new_crawler
  = (Return tt, new_crawler,
     [Log INFO Starting; Log INFO (Completed 0)]).
Proof.
  intros Hcap. cbv zeta.
  assert (py_range 1 (max_pages + 1) = []) as Hnil.
  { unfold py_range. replace (Z.to_nat (max_pages + 1 - 1)) with 0%nat by lia.
    reflexivity. }
  rewrite crawl_requested_pages.
  pose proof (crawl_run w max_pages self) as Hrun. cbv zeta in Hrun.
  rewrite Hnil in *. cbn in Hrun. destruct Hrun as (Ho & Hreq & Hids & _).
  split; [exact Ho|]. split; [reflexivity|]. split; [exact Hids|].
  split; [exact Hreq|].
  rewrite crawl_eq. cbv zeta. rewrite Hnil. cbn.
  assert (set_iter (∅ : gset (list N)) = []) as ->.
  { apply Permutation_nil_r.
    rewrite <- (elements_empty (C := gset (list N))).
    rewrite set_iter_perm. reflexivity. }
  reflexivity.
Qed.

End CrawlRuns.

(** ** More on the export *)

Section SaveRuns.

Context {runtime : PyRuntime} {pandas : Pandas} (w : world).

Lemma labelled_columns (g : list N -> result (list json)) (ks : list (list N)) :
  forall cols,
    mapM (fun k => cells ← g k; mret (k, cells)) ks = Return cols ->
    map fst cols = ks.
Proof.
  induction ks as [|k ks IH]; intros cols E.
  - inversion E. reflexivity.
  - cbn [mapM] in E. destruct (g k) as [cells|]; [|discriminate E].
    cbn [mbind result_bind mret result_ret] in E.
    destruct (mapM (fun k => cells ← g k; mret (k, cells)) ks) as [cols'|];
      [|discriminate E].
    cbn [mbind result_bind mret result_ret] in E. inversion E.
    cbn [map fst]. rewrite (IH cols' eq_refl). reflexivity.
Qed.

Lemma DataFrame_keeps records df :
  DataFrame records = Return df ->
  height df = length records /\ map fst (columns df) = all_keys records.
Proof.
  unfold DataFrame. intros E.
  destruct (mapM _ (all_keys records)) as [cols|] eqn:Ecols;
    [|discriminate E].
  cbn [mbind result_bind mret result_ret] in E. inversion E.
  cbn [height columns]. split; [reflexivity|].
  eapply labelled_columns, Ecols.
Qed.

Lemma frame_setitem_labels cols col cells old :
  frame_getitem cols col = Return old ->
  map fst (frame_setitem cols col cells) = map fst cols.
Proof.
  induction cols as [|[k c] cols IH]; [discriminate|].
  cbn [frame_getitem frame_setitem]. destruct (bool_decide (col = k)).
  - reflexivity.
  - intros E. cbn [map fst]. rewrite (IH E). reflexivity.
Qed.

Lemma frame_getitem_setitem cols col cells :
  frame_getitem (frame_setitem cols col cells) col = Return cells.
Proof.
  induction cols as [|[k c] cols IH]; cbn [frame_setitem frame_getitem].
  - rewrite bool_decide_eq_true_2; reflexivity.
  - destruct (bool_decide (col = k)) eqn:E; cbn [frame_getitem]; rewrite E;
      [reflexivity|exact IH].
Qed.

Lemma frame_getitem_setitem_ne cols col col' cells :
  col' <> col ->
  frame_getitem (frame_setitem cols col cells) col' = frame_getitem cols col'.
Proof.
  intros Hne.
  induction cols as [|[k c] cols IH]; cbn [frame_setitem frame_getitem].
  - rewrite bool_decide_eq_false_2; [reflexivity|exact Hne].
  - destruct (bool_decide (col = k)) eqn:E; cbn [frame_getitem].
    + apply bool_decide_eq_true_1 in E. subst k.
      rewrite bool_decide_eq_false_2; [reflexivity|exact Hne].
    + destruct (bool_decide (col' = k)); [reflexivity|exact IH].
Qed.

(** What the function given to [apply] returns is a string. *)
Lemma join_or_str_is_str x y : join_or_str x = Return y -> is_str y = true.
Proof.
  unfold join_or_str.
  destruct x as [|b|z|f|s|l|d]; try (intros E; inversion E; reflexivity).
  destruct (mapM _ l) as [pieces|]; [|discriminate].
  intros E. inversion E. reflexivity.
Qed.

Lemma joined_are_str cells : forall joined,
  mapM join_or_str cells = Return joined -> forallb is_str joined = true.
Proof.
  induction cells as [|x cells IH]; intros joined E.
  - inversion E. reflexivity.
  - cbn [mapM] in E. destruct (join_or_str x) as [y|] eqn:Ey; [|discriminate E].
    cbn [mbind result_bind] in E.
    destruct (mapM join_or_str cells) as [ys|]; [|discriminate E].
    cbn [mbind result_bind mret result_ret] in E. inversion E.
    cbn [forallb]. rewrite (join_or_str_is_str _ _ Ey), (IH ys eq_refl).
    reflexivity.
Qed.

Lemma str_are_objects cells :
  forallb is_str cells = true -> forallb is_object_cell cells = true.
Proof.
  induction cells as [|x cells IH]; [reflexivity|].
  cbn [forallb]. intros [Hx Hrest]%andb_true_iff.
  rewrite (IH Hrest), andb_true_r.
  destruct x; try discriminate Hx; reflexivity.
Qed.

(** One turn of the loop, when it does not raise. *)
Lemma join_columns_step col cols df df' :
  join_columns (col :: cols) df = Return df' ->
  exists old joined,
    frame_getitem (columns df) col = Return old /\
    forallb is_str joined = true /\
    join_columns cols
      {| height := height df;
         columns := frame_setitem (columns df) col joined |}
    = Return df'.
Proof.
  cbn [join_columns]. intros E.
  destruct (frame_getitem (columns df) col) as [cells|]; [|discriminate E].
  cbn [mbind result_bind] in E.
  destruct (mapM join_or_str cells) as [joined|] eqn:Ej; [|discriminate E].
  cbn [mbind result_bind] in E.
  pose proof (joined_are_str _ _ Ej) as Hstr.
  rewrite (column_of_objects _ (str_are_objects _ Hstr)) in E.
  cbn [mbind result_bind] in E.
  exists cells, joined. auto.
Qed.

Lemma join_columns_keeps cols : forall df df',
  join_columns cols df = Return df' ->
  height df' = height df /\ map fst (columns df') = map fst (columns df).
Proof.
  induction cols as [|col cols IH]; intros df df' E.
  - inversion E. split; reflexivity.
  - apply join_columns_step in E as (old & joined & Eget & _ & E).
    apply IH in E as [Hh Hl].
    cbn [height columns] in Hh, Hl. split; [exact Hh|].
    rewrite Hl. eapply frame_setitem_labels, Eget.
Qed.

(** A column of strings stays one through the loop. *)
Lemma join_columns_str_stays cols : forall df df' c cells,
  join_columns cols df = Return df' ->
  frame_getitem (columns df) c = Return cells ->
  forallb is_str cells = true ->
  exists cells',
    frame_getitem (columns df') c = Return cells' /\
    forallb is_str cells' = true.
Proof.
  induction cols as [|col cols IH]; intros df df' c cells E Hc Hstr.
  - inversion E. subst df'. eauto.
  - apply join_columns_step in E as (old & joined & _ & Hj & E).
    destruct (decide (c = col)) as [->|Hne].
    + eapply IH; [exact E| |exact Hj].
      cbn [columns]. apply frame_getitem_setitem.
    + eapply IH; [exact E| |exact Hstr].
      cbn [columns]. rewrite frame_getitem_setitem_ne by exact Hne. exact Hc.
Qed.

(** After the loop every column it went through holds strings. *)
Lemma join_columns_str cols : forall df df' c,
  join_columns cols df = Return df' ->
  In c cols ->
  exists cells,
    frame_getitem (columns df') c = Return cells /\
    forallb is_str cells = true.
Proof.
  induction cols as [|col cols IH]; intros df df' c E Hin; [destruct Hin|].
  apply join_columns_step in E as (old & joined & _ & Hj & E).
  destruct (decide (c = col)) as [->|Hne].
  - eapply join_columns_str_stays; [exact E| |exact Hj].
    cbn [columns]. apply frame_getitem_setitem.
  - destruct Hin as [Heq|Hin]; [congruence|].
    eapply IH; [exact E|exact Hin].
Qed.

Lemma save_to_csv_eq (filename : option (list N)) (self : crawler) :
  let name := match filename with
              | Some (c :: f) => c :: f
              | _ => default_filename w
              end in
  save_to_csv w filename self
  = (Return tt, self,
     match results self with
     | [] => [Log WARNING NoDataToSave]
     | _ :: _ =>
         match DataFrame (results self) ≫= join_columns list_columns with
         | Return df =>
             [ ToCsv name false (lit "utf-8-sig") df;
               match to_csv_error w name df with
               | None => Log INFO (DataSaved name)
               | Some _ => Log ERROR ErrorSaving
               end ]
         | Raise _ => [Log ERROR ErrorSaving]
         end
     end).
Proof.
  cbv zeta. unfold save_to_csv.
  unfold mbind, M_bind at 1. unfold get_self at 1.
  destruct (results self) as [|r rs]; [reflexivity|].
  cbn [nonempty negb]. unfold try_except.
  unfold mbind, M_bind at 1. unfold lift at 1.
  destruct (DataFrame (r :: rs)) as [df0|e]; [|reflexivity].
  cbn [result_bind].
  unfold mbind, M_bind at 1. unfold lift at 1.
  destruct (join_columns list_columns df0) as [df|e]; [|reflexivity].
  unfold mbind, M_bind at 1. unfold to_csv.
  unfold mbind, M_bind at 1. unfold emit at 1.
  destruct (to_csv_error w _ df); reflexivity.
Qed.

Lemma save_to_csv_cases (filename : option (list N)) (self : crawler) :
  let name := match filename with
              | Some (c :: f) => c :: f
              | _ => default_filename w
              end in
  let run := save_to_csv w filename self in
  outcome run = Return tt /\
  final run = self /\
  (results self = [] -> trace run = [Log WARNING NoDataToSave]) /\
  (results self <> [] ->
   trace run = [Log ERROR ErrorSaving]
   \/ exists df,
        trace run
        = [ ToCsv name false (lit "utf-8-sig") df;
            match to_csv_error w name df with
            | None => Log INFO (DataSaved name)
            | Some _ => Log ERROR ErrorSaving
            end ] /\
        map fst (columns df) = all_keys (results self) /\
        height df = length (results self) /\
        forall col, In col list_columns ->
          exists cells,
            frame_getitem (columns df) col = Return cells /\
            forallb is_str cells = true).
Proof.
  cbv zeta. pose proof (save_to_csv_eq filename self) as E. cbv zeta in E.
  rewrite E. unfold outcome, final, trace. cbn [fst snd].
  split; [reflexivity|]. split; [reflexivity|].
  destruct (results self) as [|r rs] eqn:Hres.
  - split; [reflexivity|]. intros Hne; destruct Hne; reflexivity.
  - split; [discriminate|]. intros _.
    destruct (DataFrame (r :: rs)) as [df0|e] eqn:E0;
      cbn [mbind result_bind]; [|left; reflexivity].
    destruct (join_columns list_columns df0) as [df|e] eqn:Ej;
      [|left; reflexivity].
    right. exists df. split; [reflexivity|].
    apply DataFrame_keeps in E0 as [Hh0 Hl0].
    destruct (join_columns_keeps _ _ _ Ej) as [Hh Hl].
    split; [rewrite Hl; exact Hl0|]. split; [rewrite Hh; exact Hh0|].
    intros col Hin. eapply join_columns_str; [exact Ej|exact Hin].
Qed.


End SaveRuns.

(** ** The whole run *)

Section MainRun.

Context {runtime : PyRuntime} {pandas : Pandas} (w : world).

Lemma to_csv_calls_app t1 t2 :
  to_csv_calls (t1 ++ t2) = to_csv_calls t1 ++ to_csv_calls t2.
Proof. apply omap_app. Qed.

Lemma discover_calls_nothing pages : forall self,
  to_csv_calls (trace (discover w pages self)) = [].
Proof.
  induction pages as [|page rest IH]; intros self; [reflexivity|].
  rewrite discover_cons.
  assert (to_csv_calls (trace (get_job_list w page self)) = []) as Hl.
  { rewrite get_job_list_eq. unfold trace. cbn [snd].
    destruct (respond w (ListingPage page)) as [|data]; [reflexivity|].
    destruct (listed_ids data) as [[|]|]; reflexivity. }
  destruct (list_result w page) as [[|id ids]|e]; unfold trace at 1; cbn [snd];
    rewrite ?to_csv_calls_app, ?Hl, ?IH; reflexivity.
Qed.

Lemma enrich_calls_nothing ids : forall self,
  to_csv_calls (trace (enrich w ids self)) = [].
Proof.
  induction ids as [|job_id rest IH]; intros self; [reflexivity|].
  rewrite enrich_cons. cbv zeta. unfold trace at 1. cbn [snd].
  rewrite to_csv_calls_app. change (Sleep :: ?t) with ([Sleep] ++ t).
  rewrite to_csv_calls_app, IH, get_job_detail_eq. unfold trace. cbn [snd].
  destruct (respond w (Detail job_id)) as [|data]; [reflexivity|].
  destruct (job_detail_of data); reflexivity.
Qed.

Lemma crawl_calls_nothing max_pages self :
  to_csv_calls (trace (crawl w max_pages self)) = [].
Proof.
  rewrite crawl_eq. cbv zeta.
  destruct (outcome (discover w (py_range 1 (max_pages + 1)) self));
    unfold trace at 1; cbn [snd];
    change (Log INFO Starting :: ?t) with ([Log INFO Starting] ++ t);
    rewrite ?to_csv_calls_app, discover_calls_nothing, ?enrich_calls_nothing;
    reflexivity.
Qed.

Lemma main_eq self :
  main w self
  = match outcome (crawl w 10 self) with
    | Return _ =>
        (outcome (save_to_csv w None (final (crawl w 10 self))),
         final (save_to_csv w None (final (crawl w 10 self))),
         trace (crawl w 10 self)
         ++ trace (save_to_csv w None (final (crawl w 10 self))))
    | Raise e => (Raise e, final (crawl w 10 self), trace (crawl w 10 self))
    end.
Proof.
  unfold main. unfold mbind, M_bind at 1. unfold outcome, final, trace.
  destruct (crawl w 10 self) as [[[u|e] s1] t1]; cbn [fst snd]; [|reflexivity].
  destruct (save_to_csv w None s1) as [[r s2] t2]. reflexivity.
Qed.

(** X9: the program crawls at most ten pages and then exports.  When the
    crawl raises, so does the program, and [to_csv] is not called.  When
    it returns, the program returns, with the crawler as the crawl left it;
    it calls [to_csv] at most once, under the name [programmers_jobs_] with
    the time stamp and [.csv], on a frame with one row per result; with no
    result it does not call it and logs the warning. *)
Theorem main_run (self : crawler) :
  let c := crawl w 10 self in
  let run := main w self in
  (forall e, outcome c = Raise e ->
     outcome run = Raise e /\ to_csv_calls (trace run) = []) /\
  (outcome c = Return tt ->
   outcome run = Return tt /\
   final run = final c /\
   (to_csv_calls (trace run) = []
    \/ exists df,
         to_csv_calls (trace run) = [(default_filename w, df)] /\
         map fst (columns df) = all_keys (results (final c)) /\
         height df = length (results (final c))) /\
   (results (final c) = [] ->
    to_csv_calls (trace run) = []
    /\ In (Log WARNING NoDataToSave) (trace run))).
Proof.
  cbv zeta. rewrite main_eq.
  destruct (save_to_csv_cases w None (final (crawl w 10 self)))
    as (Ho & Hf & Hnil & Hcons).
  cbv zeta in *. split.
  - intros e He. rewrite He. unfold outcome at 1, trace at 1. cbn [fst snd].
    split; [reflexivity|apply crawl_calls_nothing].
  - intros Hc. rewrite Hc. unfold outcome at 1, final at 1, trace. cbn [fst snd].
    fold (trace (crawl w 10 self)).
    fold (trace (save_to_csv w None (final (crawl w 10 self)))).
    split; [exact Ho|]. split; [exact Hf|].
    rewrite to_csv_calls_app, crawl_calls_nothing. cbn [app].
    destruct (results (final (crawl w 10 self))) as [|r rs] eqn:Hres.
    + rewrite (Hnil eq_refl). split; [left; reflexivity|].
      intros _. split; [reflexivity|]. apply in_or_app. right. left. reflexivity.
    + split; [|discriminate].
      destruct (Hcons ltac:(discriminate)) as [->|(df & -> & Hl & Hh & _)].
      * left. reflexivity.
      * right. exists df. split; [|split; [exact Hl|exact Hh]].
        destruct (to_csv_error w _ df); reflexivity.
Qed.

End MainRun.

(** ** More on the helpers *)

Lemma walk_app data keys1 keys2 :
  walk data (keys1 ++ keys2) = walk data keys1 ≫= (fun v => walk v keys2).
Proof.
  revert data. induction keys1 as [|key keys1 IH]; intros data; [reflexivity|].
  cbn [app walk]. destruct (getitem data key) as [next|e]; [|reflexivity].
  cbn [mbind result_bind]. apply IH.
Qed.

(** X10: a path in two parts: when the first part resolves to a value,
    [safe_get] along the whole path gives what [safe_get] gives from that
    value along the second part; when the first part resolves to nothing,
    it gives the default, whatever the second part is. *)
Theorem safe_get_path_append (data : json) (keys1 keys2 : list (list N))
    (dflt : json) :
  (forall v, resolves data keys1 v ->
     safe_get data (keys1 ++ keys2) dflt = safe_get v keys2 dflt) /\
  ((forall v, ~ resolves data keys1 v) ->
   safe_get data (keys1 ++ keys2) dflt = Return dflt).
Proof.
  split.
  - intros v Hv. apply walk_resolves in Hv. unfold safe_get.
    rewrite walk_app, Hv. reflexivity.
  - intros Hnone. apply safe_get_default. intros v Hv.
    apply walk_resolves in Hv. rewrite walk_app in Hv.
    destruct (walk data keys1) as [x|] eqn:Hx; [|discriminate Hv].
    apply walk_resolves in Hx. destruct (Hnone x Hx).
Qed.

Lemma safe_get_path_append_witness :
  safe_get (obj1 "a" (obj1 "b" (JInt 5))) ([lit "a"] ++ [lit "b"]) JNull
  = safe_get (obj1 "b" (JInt 5)) [lit "b"] JNull /\
  safe_get (obj1 "a" (JInt 5)) ([lit "x"] ++ [lit "b"]) (JStr (lit "none"))
  = Return (JStr (lit "none")).
Proof.
  split.
  - apply (safe_get_path_append (obj1 "a" (obj1 "b" (JInt 5)))
             [lit "a"] [lit "b"] JNull).
    apply (resolves_step _ _ _ (obj1 "b" (JInt 5))); [reflexivity|].
    apply resolves_here.
  - apply (safe_get_path_append (obj1 "a" (JInt 5)) [lit "x"] [lit "b"]
             (JStr (lit "none"))).
    intros v Hv. inversion Hv as [|? ? ? x ? Hx]; subst.
    vm_compute in Hx. discriminate Hx.
Defined.

(** X11: what [safe_split] does with each kind of argument: a text that is
    false (null, empty, zero, an empty container) gives the empty list
    whatever the delimiter; a true value that is no string raises
    [AttributeError]; a non-empty string raises [ValueError] with the empty
    delimiter and returns with any other. *)
Theorem safe_split_outcomes (text : json) (delimiter : list N) :
  (truthy text = false -> safe_split text delimiter = Return []) /\
  (truthy text = true -> is_str text = false ->
   safe_split text delimiter = Raise AttributeError) /\
  (forall s, text = JStr s -> s <> [] -> delimiter = [] ->
     safe_split text delimiter = Raise ValueError) /\
  (forall s, text = JStr s -> s <> [] -> delimiter <> [] ->
     exists lines, safe_split text delimiter = Return lines).
Proof.
  unfold safe_split. split; [intros ->; reflexivity|].
  split; [intros -> Hs; destruct text; try discriminate Hs; reflexivity|].
  split.
  - intros s -> Hs ->. destruct s as [|c s]; [congruence|]. reflexivity.
  - intros s -> Hs Hd. destruct s as [|c s]; [congruence|].
    destruct delimiter as [|d delimiter]; [congruence|]. cbn. eauto.
Qed.

Lemma safe_split_outcomes_witness :
  safe_split (JInt 0) [] = Return [] /\
  safe_split (JInt 5) [newline] = Raise AttributeError /\
  safe_split (JStr (lit "a")) [] = Raise ValueError /\
  exists lines, safe_split (JStr (lit "a,b")) (lit ",") = Return lines.
Proof.
  split; [apply (safe_split_outcomes (JInt 0) []); reflexivity|].
  split; [apply (safe_split_outcomes (JInt 5) [newline]); reflexivity|].
  split.
  - apply (safe_split_outcomes (JStr (lit "a")) [] ) with (s := lit "a");
      [reflexivity|discriminate|reflexivity].
  - apply (safe_split_outcomes (JStr (lit "a,b")) (lit ",")) with (s := lit "a,b");
      [reflexivity|discriminate|discriminate].
Defined.

Lemma split_one (c : N) (piece : list N) :
  ~ In c piece -> split_from [c] 0 piece = [piece].
Proof.
  induction piece as [|a piece IH]; intros Hc; [reflexivity|].
  cbn [split_from is_prefix]. rewrite andb_true_r.
  destruct (c =? a)%N eqn:E.
  - apply N.eqb_eq in E. destruct Hc. left. congruence.
  - rewrite IH; [reflexivity|]. intros Hin. apply Hc. right. exact Hin.
Qed.

Lemma split_piece_then (c : N) (piece rest : list N) :
  ~ In c piece ->
  split_from [c] 0 (piece ++ c :: rest) = piece :: split_from [c] 0 rest.
Proof.
  induction piece as [|a piece IH]; intros Hc.
  - cbn [app split_from is_prefix]. rewrite N.eqb_refl. reflexivity.
  - cbn [app split_from is_prefix]. rewrite andb_true_r.
    destruct (c =? a)%N eqn:E.
    + apply N.eqb_eq in E. destruct Hc. left. congruence.
    + rewrite IH; [reflexivity|]. intros Hin. apply Hc. right. exact Hin.
Qed.

Lemma split_join_one (c : N) (pieces : list (list N)) :
  pieces <> [] ->
  (forall piece, In piece pieces -> ~ In c piece) ->
  split_from [c] 0 (join [c] pieces) = pieces.
Proof.
  induction pieces as [|piece rest IH]; intros Hne Hc; [congruence|].
  destruct rest as [|piece' rest].
  - cbn [join]. apply split_one. apply Hc. left. reflexivity.
  - rewrite join_cons by discriminate. cbn [app].
    rewrite split_piece_then by (apply Hc; left; reflexivity).
    f_equal. apply IH; [discriminate|].
    intros p Hp. apply Hc. right. exact Hp.
Qed.

Lemma trimmed_strip (s : list N) : trimmed s = true -> strip s = s.
Proof.
  unfold trimmed. rewrite andb_true_iff, !negb_true_iff. intros [Hl Hr].
  assert (forall t, starts_with_space t = false -> lstrip t = t) as Hfix.
  { intros [|c t] Ht; [reflexivity|]. cbn in *. rewrite Ht. reflexivity. }
  unfold strip, rstrip. rewrite (Hfix s Hl), (Hfix (rev s) Hr).
  apply rev_involutive.
Qed.

Lemma debullet_none (s : list N) : ~ In bullet s -> debullet s = s.
Proof.
  induction s as [|c s IH]; intros Hb; [reflexivity|].
  cbn [debullet]. destruct (c =? bullet)%N eqn:E.
  - apply N.eqb_eq in E. destruct Hb. left. exact E.
  - f_equal. apply IH. intros Hin. apply Hb. right. exact Hin.
Qed.

(** X12: a line that [safe_split] returns with the newline delimiter is not
    changed by it again: split once more, it gives itself alone. *)
Theorem safe_split_lines_stable (text : json) (lines : list (list N)) :
  safe_split text [newline] = Return lines ->
  forall line, In line lines -> safe_split (JStr line) [newline] = Return [line].
Proof.
  intros E line Hline.
  destruct (truthy text) eqn:Ht.
  2:{ apply safe_split_falsy in E; [|exact Ht]. subst. destruct Hline. }
  destruct text as [|b|z|f|s|l|d];
    try (unfold safe_split in E; rewrite Ht in E; discriminate E).
  assert (s <> []) as Hs.
  { intros ->. discriminate Ht. }
  rewrite safe_split_str in E by (assumption || discriminate).
  inversion E; subst lines. clear E.
  apply List.filter_In in Hline as [Hin Hne].
  apply in_map_iff in Hin as (piece & <- & Hpiece).
  assert (~ In bullet (strip piece)) as Hnb.
  { intros Hb. apply strip_chars in Hb.
    apply (split_from_chars _ _ _ _ _ Hpiece) in Hb.
    apply debullet_chars in Hb as [Hb _]. congruence. }
  assert (~ In newline (strip piece)) as Hnn.
  { intros Hn. apply strip_chars in Hn.
    pose proof (split_from_no_sep [newline] (debullet s) ltac:(discriminate) 0%nat)
      as Hno.
    rewrite List.Forall_forall in Hno. apply (Hno piece Hpiece).
    apply in_split in Hn as (l1 & l2 & ->). exists l1, l2. reflexivity. }
  assert (strip piece <> []) as Hne'.
  { destruct (strip piece); [discriminate Hne|discriminate]. }
  rewrite safe_split_str by (assumption || discriminate).
  rewrite (debullet_none _ Hnb), (split_one _ _ Hnn).
  cbn [map List.filter]. rewrite (trimmed_strip _ (strip_trimmed piece)).
  rewrite Hne. reflexivity.
Qed.

Lemma safe_split_lines_stable_witness :
  safe_split (JStr (lit "run")) [newline] = Return [lit "run"].
Proof.
  apply (safe_split_lines_stable
           (JStr (bullet :: lit " run " ++ [newline] ++ lit " jump"))
           [lit "run"; lit "jump"]).
  - vm_compute. reflexivity.
  - left. reflexivity.
Defined.

(** ** More on the detail fetch and the flattening *)

Section DetailRuns.

Context {runtime : PyRuntime} (w : world).

(** X13: [get_job_detail] never raises and never changes the crawler; it
    makes one request and does not pause.  It either returns a record and
    logs nothing, or returns [None] and logs one error: that the fetch
    failed when the request failed, that something unexpected happened when
    no record could be made of the response. *)
Theorem get_job_detail_contained (job_id : list N) (self : crawler) :
  let run := get_job_detail w job_id self in
  final run = self /\
  requested_pages (trace run) = [] /\
  detail_requests (trace run) = [job_id] /\
  sleeps (trace run) = 0%nat /\
  ((exists r, outcome run = Return (Some r) /\
              trace run = [Get (Detail job_id)])
   \/ (outcome run = Return None /\
       trace run
       = [ Get (Detail job_id);
           Log ERROR match respond w (Detail job_id) with
                     | RequestFailed => ErrorFetchingDetail job_id
                     | Body _ => UnexpectedError job_id
                     end ])).
Proof.
  cbv zeta. rewrite get_job_detail_eq.
  unfold outcome, final, trace, detail_result. cbn [fst snd].
  destruct (respond w (Detail job_id)) as [|data].
  - repeat split. right. split; reflexivity.
  - destruct (job_detail_of data) as [r|e]; repeat split.
    + left. exists r. split; reflexivity.
    + right. split; reflexivity.
Qed.

(** X14: a response that is an object without [jobPosition], or with an empty
    one, is no failure: the record made of it holds the fallback in every
    field. *)
Theorem get_job_detail_without_posting (job_id : list N) (self : crawler)
    (data : json) :
  respond w (Detail job_id) = Body data ->
  py_get data (lit "jobPosition") (JObj []) = Return (JObj []) ->
  outcome (get_job_detail w job_id self)
  = Return (Some (to_dict fallback_record)).
Proof.
  intros Hresp Hjp. rewrite get_job_detail_eq.
  unfold outcome, detail_result. cbn [fst]. rewrite Hresp.
  unfold job_detail_of. rewrite Hjp. reflexivity.
Qed.

(** X15: in a record that [get_job_detail] returns each of the six sequence
    fields is a list that is not empty, and apart from [tech_stack] it
    holds strings only; so the join of the export can fail on [tech_stack]
    alone. *)
Theorem fetched_sequences_not_empty (job_id : list N) (self : crawler)
    (r : list (list N * json)) :
  outcome (get_job_detail w job_id self) = Return (Some r) ->
  forall col, In col list_columns ->
    exists l,
      dict_lookup col r = Some (JArr l) /\
      l <> [] /\
      (col <> lit "tech_stack" -> forallb is_str l = true).
Proof.
  intros Hr col Hcol.
  destruct (fetched_record _ _ _ _ Hr) as (data & _ & Hjob).
  destruct (job_detail_of_inv _ _ Hjob)
    as (d & cat_ids & tags & tech & lines & comp & pref & welf
        & _ & _ & _ & _ & _ & _ & _ & _ & ->).
  assert (forall l fb, exists l',
            py_or (strs l) (strs [fb]) = JArr l' /\ l' <> []
            /\ forallb is_str l' = true) as Hor.
  { intros l fb. rewrite py_or_strs. eexists. split; [reflexivity|].
    destruct l as [|x l]; cbn [nonempty]; (split; [discriminate|]);
      unfold strs; rewrite forallb_forall; intros e He;
      apply in_map_iff in He as (? & <- & _); reflexivity. }
  simpl in Hcol.
  destruct Hcol as [<-|[<-|[<-|[<-|[<-|[<-|[]]]]]]].
  - destruct (Hor (map py_str cat_ids) no_category) as (l' & E & Hne & Hs).
    exists l'. split; [|split; [exact Hne|intros _; exact Hs]].
    unfold strs in E at 1. rewrite map_map in E.
    change (dict_lookup (lit "category") _)
      with (Some (py_or (JArr (map (fun cat_id => JStr (py_str cat_id)) cat_ids))
                    (strs [no_category]))).
    rewrite <- E. reflexivity.
  - destruct (Hor lines no_role) as (l' & E & Hne & Hs).
    exists l'. split; [|split; [exact Hne|intros _; exact Hs]].
    rewrite <- E. reflexivity.
  - destruct (Hor lines no_requirement) as (l' & E & Hne & Hs).
    exists l'. split; [|split; [exact Hne|intros _; exact Hs]].
    rewrite <- E. reflexivity.
  - destruct (Hor pref no_preferred) as (l' & E & Hne & Hs).
    exists l'. split; [|split; [exact Hne|intros _; exact Hs]].
    rewrite <- E. reflexivity.
  - destruct tech as [|t tech].
    + exists [JStr no_tech_stack]. split; [reflexivity|].
      split; [discriminate|reflexivity].
    + exists (t :: tech). split; [reflexivity|]. split; [discriminate|].
      intros Hne. destruct Hne. reflexivity.
  - destruct (Hor welf no_welfare) as (l' & E & Hne & Hs).
    exists l'. split; [|split; [exact Hne|intros _; exact Hs]].
    rewrite <- E. reflexivity.
Qed.

(** X16: the flattening of a sequence can be undone when the sequence is not
    empty and none of its strings holds a bar: the cell, split at the bars,
    is the sequence again. *)
Theorem bar_join_can_be_split (l : list (list N)) :
  l <> [] ->
  (forall s, In s l -> ~ In 124%N s) ->
  exists cell,
    join_or_str (strs l) = Return (JStr cell) /\
    split cell (lit "|") = Return l.
Proof.
  intros Hne Hbar. exists (join (lit "|") l).
  split; [apply join_or_str_strs|].
  change (lit "|") with [124%N]. cbn [split].
  rewrite split_join_one by assumption. reflexivity.
Qed.

End DetailRuns.

Lemma get_job_detail_without_posting_witness :
  outcome (get_job_detail (runtime := sample_runtime)
             (world_of (fun _ => Body (obj1 "status" (JInt 404))))
             (lit "7") new_crawler)
  = Return (Some (to_dict fallback_record)).
Proof.
  apply (get_job_detail_without_posting (runtime := sample_runtime)
           (world_of (fun _ => Body (obj1 "status" (JInt 404))))
           (lit "7") new_crawler (obj1 "status" (JInt 404)));
    reflexivity.
Defined.

Lemma fetched_sequences_not_empty_witness :
  exists l,
    dict_lookup (lit "tech_stack") (to_dict fallback_record) = Some (JArr l) /\
    l <> [] /\
    (lit "tech_stack" <> lit "tech_stack" -> forallb is_str l = true).
Proof.
  apply (fetched_sequences_not_empty (runtime := sample_runtime)
           (posting (JObj [])) (lit "7") new_crawler
           (to_dict fallback_record)).
  - vm_compute. reflexivity.
  - vm_compute. tauto.
Defined.

Lemma bar_join_can_be_split_witness :
  exists cell,
    join_or_str (runtime := sample_runtime) (strs [lit "Python"; lit "Go"])
    = Return (JStr cell) /\
    split cell (lit "|") = Return [lit "Python"; lit "Go"].
Proof.
  apply (bar_join_can_be_split (runtime := sample_runtime)
           [lit "Python"; lit "Go"]).
  - discriminate.
  - intros s [<-|[<-|[]]]; vm_compute;
      intros H; repeat (destruct H as [H|H]; [discriminate H|]); exact H.
Defined.

(** ** Runs that show the further properties *)

Lemma get_job_detail_record_iff_shape_witness :
  outcome (get_job_detail (runtime := sample_runtime) (posting JNull)
             (lit "7") new_crawler)
  = Return None.
Proof.
  apply (get_job_detail_record_iff_shape (runtime := sample_runtime)
           (posting JNull) (lit "7") new_crawler).
  right. exists (JObj [(lit "jobPosition", JNull)]). split; reflexivity.
Defined.

Lemma get_job_list_raises_iff_shape_witness :
  exists e,
    outcome (get_job_list (runtime := sample_runtime)
               (one_page_then (Body (JArr []))) 2 new_crawler) = Raise e /\
    (e = AttributeError \/ e = TypeError).
Proof.
  apply (proj1 (get_job_list_raises_iff_shape (runtime := sample_runtime)
                  (one_page_then (Body (JArr []))) 2 new_crawler) (JArr []));
    reflexivity.
Defined.

Lemma crawl_aborts_on_malformed_listing_witness :
  outcome (crawl (runtime := sample_runtime)
             (one_page_then (Body (JArr []))) 10 new_crawler)
  = Raise AttributeError /\
  requested_pages (trace (crawl (runtime := sample_runtime)
                            (one_page_then (Body (JArr []))) 10 new_crawler))
  = [1; 2] /\
  detail_requests (trace (crawl (runtime := sample_runtime)
                            (one_page_then (Body (JArr []))) 10 new_crawler))
  = [].
Proof.
  destruct (crawl_aborts_on_malformed_listing (runtime := sample_runtime)
              (one_page_then (Body (JArr []))) 10 2 AttributeError new_crawler)
    as (Ho & Hp & Hd & _).
  - lia.
  - intros j st Hj. assert (j = 1) as -> by lia.
    eexists _, _. vm_compute. reflexivity.
  - intros st. vm_compute. reflexivity.
  - split; [exact Ho|]. split; [exact Hp|exact Hd].
Defined.

Lemma crawl_truncated_by_failed_request_witness :
  outcome (crawl (runtime := sample_runtime)
             (one_page_then RequestFailed) 10 new_crawler)
  = Return tt /\
  requested_pages (trace (crawl (runtime := sample_runtime)
                            (one_page_then RequestFailed) 10 new_crawler))
  = [1; 2].
Proof.
  destruct (crawl_truncated_by_failed_request (runtime := sample_runtime)
              (one_page_then RequestFailed) 10 2 new_crawler)
    as (Ho & Hp & _).
  - lia.
  - intros j st Hj. assert (j = 1) as -> by lia.
    eexists _, _. vm_compute. reflexivity.
  - reflexivity.
  - split; [exact Ho|exact Hp].
Defined.

Lemma crawl_accumulates_witness :
  In (lit "9")
    (detail_requests
       (trace (crawl (runtime := sample_runtime) (one_page_then RequestFailed)
                 10 {| job_ids := {[ lit "9" ]}; results := [] |}))).
Proof.
  apply (crawl_accumulates (runtime := sample_runtime)
           (one_page_then RequestFailed) 10
           {| job_ids := {[ lit "9" ]}; results := [] |}).
  - vm_compute. reflexivity.
  - cbn [job_ids]. apply elem_of_singleton. reflexivity.
Defined.

Lemma crawl_without_pages_witness :
  crawl (runtime := sample_runtime) (one_page_then RequestFailed) 0 new_crawler
  = (Return tt, new_crawler, [Log INFO Starting; Log INFO (Completed 0)]).
Proof.
  apply (crawl_without_pages (runtime := sample_runtime)
           (one_page_then RequestFailed) 0 new_crawler).
  lia.
Defined.


Lemma main_run_witness :
  outcome (main (runtime := sample_runtime) (pandas := sample_pandas)
             (one_page_then (Body (JArr []))) new_crawler)
  = Raise AttributeError /\
  to_csv_calls (trace (main (runtime := sample_runtime)
                         (pandas := sample_pandas)
                         (one_page_then (Body (JArr []))) new_crawler))
  = [] /\
  outcome (main (runtime := sample_runtime) (pandas := sample_pandas)
             (one_page_then RequestFailed) new_crawler)
  = Return tt.
Proof.
  destruct (proj1 (main_run (runtime := sample_runtime)
                     (pandas := sample_pandas)
                     (one_page_then (Body (JArr []))) new_crawler)
              AttributeError) as [Ho Hw]; [vm_compute; reflexivity|].
  split; [exact Ho|]. split; [exact Hw|].
  apply (proj2 (main_run (runtime := sample_runtime) (pandas := sample_pandas)
                  (one_page_then RequestFailed) new_crawler)).
  vm_compute. reflexivity.
Defined.

(** ** Integer identifiers *)

Lemma lit_inj (s1 s2 : string) : lit s1 = lit s2 -> s1 = s2.
Proof.
  unfold lit. intros E.
  assert (String.list_ascii_of_string s1 = String.list_ascii_of_string s2) as E'.
  { revert E. generalize (String.list_ascii_of_string s1).
    generalize (String.list_ascii_of_string s2).
    intros l2 l1. revert l2.
    induction l1 as [|a l1 IH]; intros [|b l2] E; try discriminate E;
      [reflexivity|].
    cbn [map] in E. inversion E as [[Ha Hl]]. f_equal; [|apply IH; exact Hl].
    rewrite <- (ascii_N_embedding a), <- (ascii_N_embedding b), Ha.
    reflexivity. }
  rewrite <- (String.string_of_list_ascii_of_string s1),
          <- (String.string_of_list_ascii_of_string s2), E'.
  reflexivity.
Qed.

Lemma int_str_inj (z1 z2 : Z) : int_str z1 = int_str z2 -> z1 = z2.
Proof.
  unfold int_str. intros E. apply lit_inj in E.
  assert (forall z, NilZero.int_of_string (NilZero.string_of_int (Z.to_int z))
                    = Some (Z.to_int z)) as Hisi.
  { intros z. apply NilZero.isi; destruct z as [|p|p]; cbn;
      try discriminate; intros [= Hp]; exact (DecimalPos.Unsigned.to_uint_nonnil p Hp). }
  apply DecimalZ.to_int_inj.
  pose proof (Hisi z1) as H1. rewrite E, Hisi in H1. congruence.
Qed.

Section IntegerIds.

Context {runtime : PyRuntime} (w : world).

(** X17: a listing page whose entries carry integer identifiers, none of them
    zero and no two the same, gives their decimal strings in order, no two
    the same. *)
Theorem get_job_list_distinct_integers (page : Z) (self : crawler)
    (data : json) (items : list json) (zs : list Z) :
  respond w (ListingPage page) = Body data ->
  py_get data (lit "jobPositions") (JArr []) = Return (JArr items) ->
  Forall is_object items ->
  map entry_id items = map JInt zs ->
  ~ In 0 zs ->
  NoDup zs ->
  outcome (get_job_list w page self) = Return (map int_str zs) /\
  NoDup (map int_str zs).
Proof.
  intros Hresp Hpos Hobj Hids Hzero Hnd. split.
  - rewrite get_job_list_eq. unfold outcome, list_result. cbn [fst].
    rewrite Hresp. unfold listed_ids. rewrite Hpos.
    cbn [mbind result_bind py_iter]. rewrite (collect_ids_objects _ Hobj), Hids.
    f_equal. clear Hids Hnd. induction zs as [|z zs IH]; [reflexivity|].
    cbn [map List.filter truthy].
    destruct (z =? 0) eqn:Ez.
    + apply Z.eqb_eq in Ez. destruct Hzero. left. congruence.
    + cbn [negb map py_str]. f_equal. apply IH.
      intros Hin. apply Hzero. right. exact Hin.
  - assert (Inj (=) (=) int_str) as Hinj
      by (intros z1 z2; apply int_str_inj).
    apply (NoDup_fmap_2 int_str). exact Hnd.
Qed.

End IntegerIds.

Lemma get_job_list_distinct_integers_witness :
  outcome (get_job_list (runtime := sample_runtime)
             (service [[obj1 "id" (JInt 12); obj1 "id" (JInt (-3))]]
                (fun _ => RequestFailed))
             1 new_crawler)
  = Return [lit "12"; lit "-3"] /\
  NoDup (map int_str [12; -3]).
Proof.
  apply (get_job_list_distinct_integers (runtime := sample_runtime)
           (service [[obj1 "id" (JInt 12); obj1 "id" (JInt (-3))]]
              (fun _ => RequestFailed))
           1 new_crawler
           (obj1 "jobPositions" (JArr [obj1 "id" (JInt 12); obj1 "id" (JInt (-3))]))
           [obj1 "id" (JInt 12); obj1 "id" (JInt (-3))] [12; -3]).
  - reflexivity.
  - reflexivity.
  - repeat constructor; eexists; reflexivity.
  - reflexivity.
  - intros [H|[H|[]]]; discriminate H.
  - apply NoDup_cons_2; [|apply NoDup_cons_2; [|apply NoDup_nil_2]].
    + intros H. apply list_elem_of_In in H. destruct H as [H|[]].
      discriminate H.
    + intros H. apply list_elem_of_In in H. destruct H.
Defined.
